(** * The real-time voice session bridge of restaurant-model-backend

    A shallow embedding of [src/sessionManager.ts], [src/aiProviders.ts]
    (with the call-context store it carries), and the parts of
    [src/dataStorage.ts] and [src/functionHandlers.ts] the session manager
    touches, followed by the properties of the bridge.

    Conventions of the embedding.
    - A JavaScript [number] holding a telephony timestamp is an integer [Z].
    - An optional field ([x?: T]) is an [option T]; the empty object [{}]
      is the record whose fields are all [None].
    - A handler is a state transformer that also returns how it completed
      ([Return] or [Throw]) and the effects it had on the outside world
      (socket traffic and the methods invoked on the provider), in order.
    - Console output is not modelled. *)

From Stdlib Require Import ZArith String Ascii List Bool Lia.
From stdpp Require Import gmap strings pretty.
Import ListNotations.
Open Scope string_scope.
Open Scope list_scope.
Open Scope Z_scope.
Set Warnings "-register-all".

(** ** JSON values and [JSON.stringify] *)

Inductive JsValue : Type :=
| JNull
| JBool (b : bool)
| JNum (n : Z)
| JStr (s : string)
| JArr (xs : list JsValue)
| JObj (fields : list (string * JsValue)).

Definition dquote : ascii := "034"%char.
Definition backslash : ascii := "092"%char.

Definition hex_digit (n : nat) : ascii :=
  nth n (list_ascii_of_string "0123456789abcdef") "0"%char.

(** The escape [JSON.stringify] writes for one character of a string. *)
Definition json_escape_char (c : ascii) : string :=
  let n := nat_of_ascii c in
  if Ascii.eqb c dquote then String backslash (String dquote EmptyString)
  else if Ascii.eqb c backslash then String backslash (String backslash EmptyString)
  else if Nat.eqb n 8 then String backslash "b"
  else if Nat.eqb n 9 then String backslash "t"
  else if Nat.eqb n 10 then String backslash "n"
  else if Nat.eqb n 12 then String backslash "f"
  else if Nat.eqb n 13 then String backslash "r"
  else if Nat.ltb n 32 then
    String backslash ("u00" +:+ String (hex_digit (n / 16)) (String (hex_digit (n mod 16)) EmptyString))
  else String c EmptyString.

Fixpoint json_escape (s : string) : string :=
  match s with
  | EmptyString => EmptyString
  | String c rest => json_escape_char c +:+ json_escape rest
  end.

Definition json_quote (s : string) : string :=
  String dquote (json_escape s +:+ String dquote EmptyString).

Fixpoint join_with (sep : string) (parts : list string) : string :=
  match parts with
  | [] => EmptyString
  | [p] => p
  | p :: rest => p +:+ sep +:+ join_with sep rest
  end.

Fixpoint JSON_stringify (v : JsValue) : string :=
  match v with
  | JNull => "null"
  | JBool true => "true"
  | JBool false => "false"
  | JNum n => pretty n
  | JStr s => json_quote s
  | JArr xs => "[" +:+ join_with "," (map JSON_stringify xs) +:+ "]"
  | JObj fields =>
      "{" +:+ join_with ","
                (map (fun kv => json_quote (fst kv) +:+ ":" +:+ JSON_stringify (snd kv)) fields)
          +:+ "}"
  end.

(** [obj.key] on a parsed value: the last field of that name of an
    object, [undefined] ([None]) on anything else but [null], on which
    the property access throws. *)
Definition js_get (key : string) (v : JsValue) : option JsValue :=
  match v with
  | JObj fields => snd <$> List.find (fun kv => String.eqb (fst kv) key) (rev fields)
  | _ => None
  end.

(** [!v] on a parsed value. *)
Definition js_falsy (v : JsValue) : bool :=
  match v with
  | JNull | JBool false | JNum 0 | JStr EmptyString => true
  | _ => false
  end.

(** ** Completions, effects and the handler monad *)

(** A thrown [Error] object, by its [message]. *)
Record JsError : Type := Error { message : string }.

Inductive Completion (A : Type) : Type :=
| Return (a : A)
| Throw (e : JsError).
Arguments Return {A} a.
Arguments Throw {A} e.

(** The methods of the [AIProvider] interface, as invocations. *)
Inductive Method : Type :=
| m_connect
| m_sendAudio (audioData : string)
| m_sendFunctionResponse (name call_id response : string)
| m_interrupt
| m_truncate (itemId : string) (audioEndMs : Z)
| m_close.

(** What a call does to a socket: [WsNew] is [new WebSocket(url)],
    [WsSend] is a frame that went out on an open socket and [WsClose] is
    a call of [ws.close()]. Sockets are named by a handle. *)
Inductive WsEffect : Type :=
| WsNew (ws : nat) (url : string)
| WsSend (ws : nat) (data : string)
| WsClose (ws : nat).

(** What a handler of the session manager does to the outside world:
    [Io] is a socket call of its own, [Invoke] is a method call on
    [session.aiProvider], and [ProviderIo] is a socket call that method
    made in turn. *)
Inductive Effect : Type :=
| Io (e : WsEffect)
| Invoke (m : Method)
| ProviderIo (e : WsEffect).

(** A computation over a state [S] with effects [E]: how it completed,
    the state it left, and the effects it had, in order. *)
Definition M (E S A : Type) : Type := S -> Completion A * S * list E.

Definition ret {E S A : Type} (a : A) : M E S A := fun s => (Return a, s, []).

Definition throw {E S A : Type} (e : JsError) : M E S A := fun s => (Throw e, s, []).

Definition bind {E S A B : Type} (m : M E S A) (k : A -> M E S B) : M E S B :=
  fun s =>
    match m s with
    | (Return a, s1, es1) =>
        match k a s1 with
        | (r, s2, es2) => (r, s2, es1 ++ es2)
        end
    | (Throw e, s1, es1) => (Throw e, s1, es1)
    end.

(** [try { m } catch (err) { h err }]: what [m] did before it threw stays done. *)
Definition try_catch {E S A : Type} (m : M E S A) (h : JsError -> M E S A) : M E S A :=
  fun s =>
    match m s with
    | (Return a, s1, es1) => (Return a, s1, es1)
    | (Throw e, s1, es1) =>
        match h e s1 with
        | (r, s2, es2) => (r, s2, es1 ++ es2)
        end
    end.

Definition get {E S : Type} : M E S S := fun s => (Return s, s, []).

Definition modify {E S : Type} (f : S -> S) : M E S unit := fun s => (Return tt, f s, []).

Definition emit {E S : Type} (e : E) : M E S unit := fun s => (Return tt, s, [e]).

Declare Scope js_scope.
Delimit Scope js_scope with js.
Notation "'let*' x ':=' m 'in' k" := (bind m (fun x => k))
  (at level 10, x name, m at level 100, k at level 200) : js_scope.
Notation "m '>>' k" := (bind m (fun _ => k))
  (at level 61, left associativity) : js_scope.

(** The three components of a run. *)
Definition completion {E S A : Type} (r : Completion A * S * list E) : Completion A :=
  fst (fst r).
Definition state_after {E S A : Type} (r : Completion A * S * list E) : S := snd (fst r).
Definition effects {E S A : Type} (r : Completion A * S * list E) : list E := snd r.

(** The methods a run invoked on the provider, in order. *)
Definition invocations (es : list Effect) : list Method :=
  flat_map (fun e => match e with Invoke m => [m] | _ => [] end) es.

(** The socket calls the session manager made itself, in order. *)
Definition own_io (es : list Effect) : list WsEffect :=
  flat_map (fun e => match e with Io x => [x] | _ => [] end) es.

(** The socket calls the provider made inside its methods, in order. *)
Definition provider_io (es : list Effect) : list WsEffect :=
  flat_map (fun e => match e with ProviderIo x => [x] | _ => [] end) es.

(** ** The [ws] library's socket, as far as the bridge uses it *)

Inductive ReadyState : Type := CONNECTING | OPEN | CLOSING | CLOSED.

Record WebSocket : Type := mkWebSocket { ws_id : nat; readyState : ReadyState }.

Definition readyState_eqb (a b : ReadyState) : bool :=
  match a, b with
  | CONNECTING, CONNECTING | OPEN, OPEN | CLOSING, CLOSING | CLOSED, CLOSED => true
  | _, _ => false
  end.

(** [ws.send(data)]: throws while the socket is still connecting, puts
    the frame on the wire when it is open, and drops it otherwise. *)
Definition ws_send {S : Type} (ws : WebSocket) (data : string) : M WsEffect S unit :=
  match readyState ws with
  | CONNECTING => throw (Error "WebSocket is not open: readyState 0 (CONNECTING)")
  | OPEN => emit (WsSend (ws_id ws) data)
  | CLOSING | CLOSED => ret tt
  end.

(** [ws.close()]: never throws. *)
Definition ws_close {S : Type} (ws : WebSocket) : M WsEffect S unit :=
  emit (WsClose (ws_id ws)).

(** JavaScript truthiness of the optional values the bridge tests. *)
Definition truthy_string (s : option string) : bool :=
  match s with
  | Some (String _ _) => true
  | _ => false
  end.

Definition truthy_object {A : Type} (o : option A) : bool :=
  match o with Some _ => true | None => false end.

(** [x !== undefined] *)
Definition is_defined {A : Type} (o : option A) : bool :=
  match o with Some _ => true | None => false end.

(** [n || 0] on an optional number. *)
Definition or_zero (n : option Z) : Z :=
  match n with Some z => z | None => 0 end.

(** ** JS numbers

    A JS number is an IEEE 754 double. The numbers the bridge computes
    with are timestamps in milliseconds, modelled by the integers they
    are. An integer is a double as it stands up to 2^53 in size; beyond,
    only those with 53 significant bits are. *)

(** [Number.MAX_SAFE_INTEGER], 2^53 - 1. *)
Definition MAX_SAFE_INTEGER : Z := 9007199254740991.

(** The double nearest to the integer [z], ties to even: what an
    arithmetic operation whose exact result is [z] returns, as long as
    the result is finite. *)
Definition round_to_double (z : Z) : Z :=
  let a := Z.abs z in
  let e := Z.log2 a - 52 in
  if e <=? 0 then z
  else
    let q := Z.shiftr a e in
    let r := Z.land a (Z.ones e) in
    let half := Z.shiftl 1 (e - 1) in
    let q' := if r <? half then q
              else if half <? r then q + 1
              else if Z.even q then q else q + 1 in
    Z.sgn z * Z.shiftl q' e.

(** [a - b] on two numbers whose difference is finite (below 2^1024 in
    size). *)
Definition js_sub (a b : Z) : Z := round_to_double (a - b).

(** [isOpen(ws)]: [!!ws && ws.readyState === WebSocket.OPEN]. *)
Definition isOpen (ws : option WebSocket) : bool :=
  match ws with
  | Some w => readyState_eqb (readyState w) OPEN
  | None => false
  end.

(** ** [dataStorage.ts]: the in-memory cart and order stores

    Prices, totals and dates are left out: the bridge never reads them. *)

Record CartItem : Type := mkCartItem {
  cartItemId : string;
  ci_itemId : string;
  ci_name : string;
  quantity : Z;
}.

Record Cart : Type := mkCart {
  cart_sessionId : string;
  cart_items : list CartItem;
}.

Inductive OrderStatus : Type :=
| pending | confirmed | preparing | ready | delivered | cancelled.

Record Order : Type := mkOrder {
  orderId : string;
  order_sessionId : string;
  order_items : list CartItem;
  status : OrderStatus;
}.

(** The module-level state of [dataStorage.ts], [functionHandlers.ts]
    ([currentSessionId]) and the call-context store ([callSidBySessionId]).
    [orders] is a [Map] read in insertion order, so it is an association
    list keyed by [orderId]. *)
Record Stores : Type := mkStores {
  carts : gmap string Cart;
  orders : list (string * Order);
  currentSessionId : string;
  callSidBySessionId : gmap string string;
}.

Definition set_carts (f : gmap string Cart -> gmap string Cart) (st : Stores) : Stores :=
  mkStores (f (carts st)) (orders st) (currentSessionId st) (callSidBySessionId st).

Definition set_currentSessionId (sid : string) (st : Stores) : Stores :=
  mkStores (carts st) (orders st) sid (callSidBySessionId st).

Definition set_callSidBySessionId (f : gmap string string -> gmap string string)
    (st : Stores) : Stores :=
  mkStores (carts st) (orders st) (currentSessionId st) (f (callSidBySessionId st)).

Module cartStorage.

(** [carts.get(sessionId) || null] *)
Definition getCart (sessionId : string) (st : Stores) : option Cart :=
  carts st !! sessionId.

(** [carts.delete(sessionId)] *)
Definition clearCart (sessionId : string) (st : Stores) : Stores :=
  set_carts (delete sessionId) st.

End cartStorage.

Module orderStorage.

(** [orders.get(orderId) || null] *)
Definition getOrder (oid : string) (st : Stores) : option Order :=
  snd <$> List.find (fun kv => String.eqb (fst kv) oid) (orders st).

(** [Array.from(orders.values()).filter(order => order.sessionId === sessionId)] *)
Definition getOrdersBySession (sessionId : string) (st : Stores) : list Order :=
  List.filter (fun o => String.eqb (order_sessionId o) sessionId) (map snd (orders st)).

End orderStorage.

(** [setSessionId] of [functionHandlers.ts]. *)
Definition setSessionId (sessionId : string) (st : Stores) : Stores :=
  set_currentSessionId sessionId st.

(** [linkSessionToCallSid] of the call-context store. *)
Definition linkSessionToCallSid (sessionId callSid : option string) (st : Stores) : Stores :=
  match sessionId, callSid with
  | Some sid, Some cs =>
      if negb (truthy_string sessionId) || negb (truthy_string callSid) then st
      else set_callSidBySessionId (<[sid := cs]>) st
  | _, _ => st
  end.

(** ** [functionHandlers.ts]: the tool registry, at its interface

    A handler receives the parsed arguments, works on the stores and
    resolves to a string or rejects. The handlers of the repository
    contain no [throw] statement of their own: what they reject with is
    an [Error] raised by the runtime or by a library. *)
Record FunctionHandler : Type := mkFunctionHandler {
  schema_name : string;
  handler : JsValue -> Stores -> Completion string * Stores;
}.

(** The [schema.name] of the handlers [functionHandlers.ts] registers, in
    the order of its [functions.push] calls. *)
Definition registered_names : list string :=
  [ "get_menu"; "get_menu_item"; "add_to_cart"; "get_cart"; "update_cart_item";
    "remove_from_cart"; "place_order"; "get_order_status"; "cancel_order" ].

(** ** Model configuration ([modelConfig.ts], [aiConfig.ts]) *)

Record ModelConfig : Type := mkModelConfig {
  provider : string;
  model : string;
  mc_name : string;
  audioFormat_input : string;
  audioFormat_output : string;
}.

Record AIProviderConfig : Type := mkAIProviderConfig {
  modelConfig : ModelConfig;
  apiKey : string;
  instructions : string;
  voice : option string;
}.

(** [AVAILABLE_MODELS[0]], the default model. *)
Definition DEFAULT_MODEL : ModelConfig :=
  mkModelConfig "openai" "gpt-realtime" "GPT Realtime" "g711_ulaw" "g711_ulaw".

(** ** [aiProviders.ts] *)

Record FunctionCallData : Type := mkFunctionCallData {
  fc_name : string;
  fc_arguments : string;
  fc_call_id : string;
}.

(** The abstract class [AIProvider]: the methods every provider has, and
    [truncate], which a provider may lack. A method runs on the
    provider's own state and may call its socket. *)
Class AIProvider (P : Type) : Type := {
  connect : nat -> M WsEffect P unit;
  sendAudio : string -> M WsEffect P unit;
  sendFunctionResponse : string -> string -> string -> M WsEffect P unit;
  interrupt : M WsEffect P unit;
  truncate : option (string -> Z -> M WsEffect P unit);
  close : M WsEffect P unit;
  isConnected : P -> bool;
}.

(** [class OpenAIProvider extends AIProvider]: [config] and [connected]
    come from the base class, whose constructor leaves [connected] false. *)
Record OpenAIProvider : Type := mkOpenAIProvider {
  config : AIProviderConfig;
  connected : bool;
  ws : option WebSocket;
}.

Module OpenAI.

Definition new (cfg : AIProviderConfig) : OpenAIProvider :=
  mkOpenAIProvider cfg false None.

Definition realtime_url (cfg : AIProviderConfig) : string :=
  "wss://api.openai.com/v1/realtime?model=" +:+ model (modelConfig cfg).

(** [connect]: opens the socket, whose handle [fresh] the runtime
    allocates. The socket's own events arrive later, from outside. *)
Definition connect (fresh : nat) : M WsEffect OpenAIProvider unit :=
  (let* p := get in
   emit (WsNew fresh (realtime_url (config p))) >>
   modify (fun p => mkOpenAIProvider (config p) (connected p) (Some (mkWebSocket fresh CONNECTING))))%js.

(** [sendMessage]: a failing [ws.send] is caught and logged. *)
Definition sendMessage (msg : JsValue) : M WsEffect OpenAIProvider unit :=
  (let* p := get in
   match ws p with
   | Some sock =>
       if negb (connected p) then ret tt
       else try_catch (ws_send sock (JSON_stringify msg)) (fun _ => ret tt)
   | None => ret tt
   end)%js.

Definition sendAudio (audioData : string) : M WsEffect OpenAIProvider unit :=
  (let* p := get in
   if negb (connected p) || negb (truthy_object (ws p)) then ret tt
   else sendMessage (JObj [("type", JStr "input_audio_buffer.append");
                           ("audio", JStr audioData)]))%js.

(** [response.response] is the string the dispatcher produced; it goes
    out JSON-encoded once more, as [output]. *)
Definition sendFunctionResponse (name call_id response : string)
    : M WsEffect OpenAIProvider unit :=
  (let* p := get in
   if negb (connected p) || negb (truthy_object (ws p)) then ret tt
   else
     sendMessage (JObj [("type", JStr "conversation.item.create");
                        ("item", JObj [("type", JStr "function_call_output");
                                       ("call_id", JStr call_id);
                                       ("output", JStr (JSON_stringify (JStr response)))])]) >>
     sendMessage (JObj [("type", JStr "response.create")]))%js.

(** [interrupt] has an empty body. *)
Definition interrupt : M WsEffect OpenAIProvider unit := ret tt.

Definition truncate (itemId : string) (audioEndMs : Z) : M WsEffect OpenAIProvider unit :=
  (let* p := get in
   if negb (connected p) || negb (truthy_object (ws p)) then ret tt
   else sendMessage (JObj [("type", JStr "conversation.item.truncate");
                           ("item_id", JStr itemId);
                           ("content_index", JNum 0);
                           ("audio_end_ms", JNum audioEndMs)]))%js.

Definition close : M WsEffect OpenAIProvider unit :=
  (let* p := get in
   match ws p with
   | Some sock =>
       ws_close sock >>
       modify (fun p => mkOpenAIProvider (config p) (connected p) None)
   | None => ret tt
   end >>
   modify (fun p => mkOpenAIProvider (config p) false (ws p)))%js.

Definition isConnected (p : OpenAIProvider) : bool := connected p.

End OpenAI.

#[export] Instance OpenAIProvider_AIProvider : AIProvider OpenAIProvider := {
  connect := OpenAI.connect;
  sendAudio := OpenAI.sendAudio;
  sendFunctionResponse := OpenAI.sendFunctionResponse;
  interrupt := OpenAI.interrupt;
  truncate := Some OpenAI.truncate;
  close := OpenAI.close;
  isConnected := OpenAI.isConnected;
}.

(** The factory: only the provider named [openai] exists. *)
Definition createAIProvider (cfg : AIProviderConfig) : Completion OpenAIProvider :=
  if negb (String.eqb (provider (modelConfig cfg)) "openai") then
    Throw (Error ("Unsupported AI provider: " +:+ provider (modelConfig cfg)))
  else Return (OpenAI.new cfg).

(** ** [sessionManager.ts] *)

(** The envelopes of the telephony leg, as [handleTwilioMessage] has
    read them: [StartMsg] and [MediaMsg] are envelopes whose [start] and
    [media] member is there, with the members read off it.
    [parseMessage] yields [None] for data that is not JSON; an envelope
    with another [event] is [OtherMsg]. The reads themselves, which
    throw when the member is missing, are [readTwilioMessage] below. *)
Inductive TwilioMsg : Type :=
| StartMsg (start_streamSid : option string) (start_callSid : option string)
| MediaMsg (media_timestamp : Z) (media_payload : string)
| CloseMsg
| OtherMsg.

Record ApiKeys : Type := mkApiKeys { openai : option string }.

(** What [aiConfig.ts] and the prompt getter answer when asked. *)
Record AIConfig : Type := mkAIConfig {
  getCurrentModel : ModelConfig;
  getCurrentVoice : string;
  getCurrentSystemPrompt : string;
}.

Section SessionManager.

Context {P : Type} `{AIProvider P}.

(** The factory of [aiProviders.ts], as the session manager imports it. *)
Variable createProvider : AIProviderConfig -> Completion P.

(** The tool registry of [functionHandlers.ts] and the runtime's [JSON.parse]. *)
Variable functions : list FunctionHandler.
Variable JSON_parse : string -> option JsValue.

Record Session : Type := mkSession {
  twilioConn : option WebSocket;
  frontendConn : option WebSocket;
  aiProvider : option P;
  streamSid : option string;
  saved_config : option JsValue;
  lastAssistantItem : option string;
  responseStartTimestamp : option Z;
  latestMediaTimestamp : option Z;
  apiKeys : option ApiKeys;
}.

(** [session = {}] *)
Definition empty_session : Session :=
  mkSession None None None None None None None None None.

Definition set_twilioConn (v : option WebSocket) (s : Session) : Session :=
  mkSession v (frontendConn s) (aiProvider s) (streamSid s) (saved_config s)
            (lastAssistantItem s) (responseStartTimestamp s) (latestMediaTimestamp s) (apiKeys s).

Definition set_frontendConn (v : option WebSocket) (s : Session) : Session :=
  mkSession (twilioConn s) v (aiProvider s) (streamSid s) (saved_config s)
            (lastAssistantItem s) (responseStartTimestamp s) (latestMediaTimestamp s) (apiKeys s).

Definition set_aiProvider (v : option P) (s : Session) : Session :=
  mkSession (twilioConn s) (frontendConn s) v (streamSid s) (saved_config s)
            (lastAssistantItem s) (responseStartTimestamp s) (latestMediaTimestamp s) (apiKeys s).

Definition set_streamSid (v : option string) (s : Session) : Session :=
  mkSession (twilioConn s) (frontendConn s) (aiProvider s) v (saved_config s)
            (lastAssistantItem s) (responseStartTimestamp s) (latestMediaTimestamp s) (apiKeys s).

Definition set_saved_config (v : option JsValue) (s : Session) : Session :=
  mkSession (twilioConn s) (frontendConn s) (aiProvider s) (streamSid s) v
            (lastAssistantItem s) (responseStartTimestamp s) (latestMediaTimestamp s) (apiKeys s).

Definition set_lastAssistantItem (v : option string) (s : Session) : Session :=
  mkSession (twilioConn s) (frontendConn s) (aiProvider s) (streamSid s) (saved_config s)
            v (responseStartTimestamp s) (latestMediaTimestamp s) (apiKeys s).

Definition set_responseStartTimestamp (v : option Z) (s : Session) : Session :=
  mkSession (twilioConn s) (frontendConn s) (aiProvider s) (streamSid s) (saved_config s)
            (lastAssistantItem s) v (latestMediaTimestamp s) (apiKeys s).

Definition set_latestMediaTimestamp (v : option Z) (s : Session) : Session :=
  mkSession (twilioConn s) (frontendConn s) (aiProvider s) (streamSid s) (saved_config s)
            (lastAssistantItem s) (responseStartTimestamp s) v (apiKeys s).

Definition set_apiKeys (v : option ApiKeys) (s : Session) : Session :=
  mkSession (twilioConn s) (frontendConn s) (aiProvider s) (streamSid s) (saved_config s)
            (lastAssistantItem s) (responseStartTimestamp s) (latestMediaTimestamp s) v.

(** Everything the handlers can reach: the module-level [session], the
    stores of the collaborating modules, the current configuration, and
    the handle the runtime gives the next socket it creates. *)
Record World : Type := mkWorld {
  session : Session;
  stores : Stores;
  aiConfig : AIConfig;
  next_socket : nat;
}.

Definition Handler (A : Type) : Type := M Effect World A.

Definition update_session (f : Session -> Session) : Handler unit :=
  modify (fun w => mkWorld (f (session w)) (stores w) (aiConfig w) (next_socket w)).

Definition update_stores (f : Stores -> Stores) : Handler unit :=
  modify (fun w => mkWorld (session w) (f (stores w)) (aiConfig w) (next_socket w)).

Definition fresh_socket : Handler nat :=
  fun w => (Return (next_socket w),
            mkWorld (session w) (stores w) (aiConfig w) (S (next_socket w)), []).

(** A socket call of the session manager itself. *)
Definition io {A : Type} (m : M WsEffect World A) : Handler A :=
  fun w => match m w with (r, w', es) => (r, w', map Io es) end.

(** [session.aiProvider.m(...)] on the provider [p] that
    [session.aiProvider] refers to: the method runs on the object, which
    the session keeps referring to. *)
Definition call_provider {A : Type} (m : Method) (body : M WsEffect P A) (p : P) : Handler A :=
  fun w => match body p with
           | (r, p', es) =>
               (r, mkWorld (set_aiProvider (Some p') (session w)) (stores w) (aiConfig w)
                           (next_socket w),
                Invoke m :: map ProviderIo es)
           end.

Definition cleanupConnection (sock : option WebSocket) : Handler unit :=
  match sock with
  | Some w => if isOpen sock then io (ws_close w) else ret tt
  | None => ret tt
  end.

Definition jsonSend (sock : option WebSocket) (obj : JsValue) : Handler unit :=
  match sock with
  | Some w => if negb (isOpen sock) then ret tt else io (ws_send w (JSON_stringify obj))
  | None => ret tt
  end.

Definition cleanupAIProvider : Handler unit :=
  (let* w := get in
   match aiProvider (session w) with
   | Some p => call_provider m_close close p >> update_session (set_aiProvider None)
   | None => ret tt
   end >>
   let* w := get in
   if negb (truthy_object (twilioConn (session w))) && negb (truthy_object (frontendConn (session w)))
   then update_session (fun _ => empty_session)
   else ret tt)%js.

Definition closeAllConnections : Handler unit :=
  (let* w := get in
   match twilioConn (session w) with
   | Some sock => io (ws_close sock) >> update_session (set_twilioConn None)
   | None => ret tt
   end >>
   cleanupAIProvider >>
   let* w := get in
   match frontendConn (session w) with
   | Some sock => io (ws_close sock) >> update_session (set_frontendConn None)
   | None => ret tt
   end >>
   update_session (set_streamSid None) >>
   update_session (set_lastAssistantItem None) >>
   update_session (set_responseStartTimestamp None) >>
   update_session (set_latestMediaTimestamp None) >>
   update_session (set_saved_config None))%js.

(** [handleCallConnection(ws, apiKeys)]; the listeners it registers are
    [handleTwilioMessage] and [onTwilioClose] below. *)
Definition handleCallConnection (sock : WebSocket) (keys : ApiKeys) : Handler unit :=
  (let* w := get in
   cleanupConnection (twilioConn (session w)) >>
   update_session (set_twilioConn (Some sock)) >>
   update_session (set_apiKeys (Some keys)))%js.

(** The [close] listener of the telephony socket. *)
Definition onTwilioClose : Handler unit :=
  (cleanupAIProvider >>
   let* w := get in
   cleanupConnection (twilioConn (session w)) >>
   update_session (set_twilioConn None) >>
   update_session (set_aiProvider None) >>
   update_session (set_streamSid None) >>
   update_session (set_lastAssistantItem None) >>
   update_session (set_responseStartTimestamp None) >>
   update_session (set_latestMediaTimestamp None) >>
   let* w := get in
   if negb (truthy_object (frontendConn (session w)))
   then update_session (fun _ => empty_session)
   else ret tt)%js.

(** [handleFrontendConnection(ws)] and the [close] listener it registers. *)
Definition handleFrontendConnection (sock : WebSocket) : Handler unit :=
  (let* w := get in
   cleanupConnection (frontendConn (session w)) >>
   update_session (set_frontendConn (Some sock)))%js.

Definition onFrontendClose : Handler unit :=
  (let* w := get in
   cleanupConnection (frontendConn (session w)) >>
   update_session (set_frontendConn None) >>
   let* w := get in
   if negb (truthy_object (twilioConn (session w))) && negb (truthy_object (aiProvider (session w)))
   then update_session (fun _ => empty_session)
   else ret tt)%js.

(** [handleFrontendMessage]: a [session.update] message of the observer
    is kept in [saved_config]; data that is not JSON, or is falsy, is
    dropped. *)
Definition handleFrontendMessage (data : string) : Handler unit :=
  match JSON_parse data with
  | None => ret tt
  | Some msg =>
      if js_falsy msg then ret tt
      else
        match js_get "type" msg with
        | Some (JStr t) =>
            if String.eqb t "session.update"
            then update_session (set_saved_config (js_get "session" msg))
            else ret tt
        | _ => ret tt
        end
  end.

(** Runs an external handler on the stores. *)
Definition run_handler (h : Stores -> Completion string * Stores) : Handler string :=
  fun w => match h (stores w) with
           | (r, st) => (r, mkWorld (session w) st (aiConfig w) (next_socket w), [])
           end.

Definition error_payload (msg : string) : string :=
  JSON_stringify (JObj [("error", JStr msg)]).

Definition handleFunctionCall (item : FunctionCallData) : Handler string :=
  match List.find (fun f => String.eqb (schema_name f) (fc_name item)) functions with
  | None => throw (Error ("No handler found for function: " +:+ fc_name item))
  | Some fnDef =>
      match JSON_parse (fc_arguments item) with
      | None => ret (error_payload "Invalid JSON arguments for function call.")
      | Some args =>
          try_catch
            (run_handler (handler fnDef args))
            (fun err =>
               ret (error_payload ("Error running function " +:+ fc_name item +:+ ": "
                                   +:+ message err)))
      end
  end.

(** The [audio_end_ms] that [handleTruncation] computes. *)
Definition audio_end_ms (latest start : option Z) : Z :=
  let elapsedMs := js_sub (or_zero latest) (or_zero start) in
  if elapsedMs >? 0 then elapsedMs else 0.

Definition handleTruncation : Handler unit :=
  (let* w := get in
   let s := session w in
   if negb (truthy_string (lastAssistantItem s))
      || negb (is_defined (responseStartTimestamp s))
   then ret tt
   else
     match aiProvider s with
     | Some p =>
         if isConnected p then
           match truncate, lastAssistantItem s with
           | Some truncate_method, Some item =>
               if truthy_string (lastAssistantItem s) then
                 let ms := audio_end_ms (latestMediaTimestamp s) (responseStartTimestamp s) in
                 call_provider (m_truncate item ms) (truncate_method item ms) p
               else call_provider m_interrupt interrupt p
           | _, _ => call_provider m_interrupt interrupt p
           end
         else ret tt
     | None => ret tt
     end >>
     let* w := get in
     match streamSid (session w) with
     | Some sid =>
         if truthy_object (twilioConn (session w)) && truthy_string (streamSid (session w))
         then jsonSend (twilioConn (session w))
                       (JObj [("event", JStr "clear"); ("streamSid", JStr sid)])
         else ret tt
     | None => ret tt
     end >>
     update_session (set_lastAssistantItem None) >>
     update_session (set_responseStartTimestamp None))%js.

Definition handleAIAudio (audioData : string) (itemId : option string) : Handler unit :=
  (let* w := get in
   match streamSid (session w) with
   | Some sid =>
       if negb (truthy_object (twilioConn (session w)))
          || negb (truthy_string (streamSid (session w)))
       then ret tt
       else
         match responseStartTimestamp (session w) with
         | None =>
             update_session
               (set_responseStartTimestamp (Some (or_zero (latestMediaTimestamp (session w)))))
         | Some _ => ret tt
         end >>
         (if truthy_string itemId then update_session (set_lastAssistantItem itemId)
          else ret tt) >>
         let* w := get in
         jsonSend (twilioConn (session w))
                  (JObj [("event", JStr "media"); ("streamSid", JStr sid);
                         ("media", JObj [("payload", JStr audioData)])]) >>
         jsonSend (twilioConn (session w))
                  (JObj [("event", JStr "mark"); ("streamSid", JStr sid)])
   | None => ret tt
   end)%js.

(** The [functionCall] listener: the dispatcher's result goes back to
    the provider if there still is one; a rejection is caught and logged.
    This is the listener when nothing else is handled between the call
    and the settling of the dispatcher's promise; its second half alone,
    on whatever state the session is in by then, is
    [onFunctionCallSettled] below. *)
Definition onFunctionCall (data : FunctionCallData) : Handler unit :=
  try_catch
    (let* output := handleFunctionCall data in
     let* w := get in
     match aiProvider (session w) with
     | Some p =>
         call_provider (m_sendFunctionResponse (fc_name data) (fc_call_id data) output)
                       (sendFunctionResponse (fc_name data) (fc_call_id data) output) p
     | None => ret tt
     end)%js
    (fun _ => ret tt).

(** The [speechStarted], [error] and [close] listeners. *)
Definition onSpeechStarted : Handler unit := handleTruncation.
Definition onProviderError : Handler unit := cleanupAIProvider.
Definition onProviderClose : Handler unit := cleanupAIProvider.

Definition lift_completion {A : Type} (c : Completion A) : Handler A :=
  fun w => (c, w, []).

(** [tryConnectAIProvider]. The listeners it registers are the [on...]
    handlers above. [connect()] is an async method: if it fails, the
    [.catch] on its promise runs [cleanupAIProvider]. *)
Definition tryConnectAIProvider : Handler unit :=
  (let* w := get in
   let s := session w in
   if negb (truthy_object (twilioConn s)) || negb (truthy_string (streamSid s))
      || negb (truthy_object (apiKeys s))
   then ret tt
   else if match aiProvider s with Some p => isConnected p | None => false end
   then ret tt
   else
     let currentModel := getCurrentModel (aiConfig w) in
     match apiKeys s with
     | Some keys =>
         match openai keys with
         | Some key =>
             if negb (truthy_string (openai keys)) then ret tt
             else
               let providerConfig :=
                 mkAIProviderConfig currentModel key (getCurrentSystemPrompt (aiConfig w))
                                    (Some (getCurrentVoice (aiConfig w))) in
               try_catch
                 (let* p := lift_completion (createProvider providerConfig) in
                  update_session (set_aiProvider (Some p)) >>
                  let* fresh := fresh_socket in
                  try_catch (call_provider m_connect (connect fresh) p)
                            (fun _ => cleanupAIProvider))
                 (fun _ => ret tt)
         | None => ret tt
         end
     | None => ret tt
     end)%js.

Definition handleTwilioMessage (msg : option TwilioMsg) : Handler unit :=
  match msg with
  | None => ret tt
  | Some (StartMsg sid startCallSid) =>
      (update_session (set_streamSid sid) >>
       update_stores (linkSessionToCallSid sid startCallSid) >>
       update_session (set_latestMediaTimestamp (Some 0)) >>
       update_session (set_lastAssistantItem None) >>
       update_session (set_responseStartTimestamp None) >>
       match sid with
       | Some id =>
           if truthy_string sid then
             update_stores (cartStorage.clearCart id) >>
             update_stores (setSessionId id)
           else ret tt
       | None => ret tt
       end >>
       tryConnectAIProvider)%js
  | Some (MediaMsg timestamp payload) =>
      (update_session (set_latestMediaTimestamp (Some timestamp)) >>
       let* w := get in
       match aiProvider (session w) with
       | Some p =>
           if isConnected p then call_provider (m_sendAudio payload) (sendAudio payload) p
           else ret tt
       | None => ret tt
       end)%js
  | Some CloseMsg => closeAllConnections
  | Some OtherMsg => ret tt
  end.

End SessionManager.

Arguments Session P : clear implicits.
Arguments World P : clear implicits.
Arguments Handler P A : clear implicits.

(** ** The [cancel_order] handler of [functionHandlers.ts] *)

Definition status_string (st : OrderStatus) : string :=
  match st with
  | pending => "pending"
  | confirmed => "confirmed"
  | preparing => "preparing"
  | ready => "ready"
  | delivered => "delivered"
  | cancelled => "cancelled"
  end.

(** [orders.set(orderId, order)] for a key that may be there already. *)
Fixpoint orders_set (oid : string) (o : Order) (l : list (string * Order))
    : list (string * Order) :=
  match l with
  | [] => [(oid, o)]
  | (k, v) :: rest =>
      if String.eqb k oid then (k, o) :: rest else (k, v) :: orders_set oid o rest
  end.

(** [orderStorage.cancelOrder]: [null] for an unknown, delivered or
    cancelled order; otherwise the order is stored and returned with
    status [cancelled]. *)
Definition cancelOrder (oid : string) (st : Stores) : option Order * Stores :=
  match orderStorage.getOrder oid st with
  | None => (None, st)
  | Some o =>
      match status o with
      | delivered | cancelled => (None, st)
      | _ =>
          let o' := mkOrder (orderId o) (order_sessionId o) (order_items o) cancelled in
          (Some o', mkStores (carts st) (orders_set oid o' (orders st))
                             (currentSessionId st) (callSidBySessionId st))
      end
  end.

Definition cancel_order_handler (args : JsValue) (st : Stores) : Completion string * Stores :=
  match args with
  | JNull => (Throw (Error "Cannot read properties of null (reading 'orderId')"), st)
  | _ =>
      let arg := js_get "orderId" args in
      let not_cancelled :=
        JSON_stringify
          (JObj (("error",
                  JStr "Cannot cancel order. Order not found or cannot be cancelled (already delivered/cancelled)")
                 :: match arg with Some v => [("orderId", v)] | None => [] end)) in
      match arg with
      | Some (JStr oid) =>
          match cancelOrder oid st with
          | (Some o, st') =>
              (Return (JSON_stringify
                         (JObj [("success", JBool true);
                                ("message", JStr "Order cancelled successfully");
                                ("orderId", JStr (orderId o));
                                ("status", JStr (status_string (status o)))])), st')
          | (None, st') => (Return not_cancelled, st')
          end
      | _ => (Return not_cancelled, st)
      end
  end.

(** The registry with its nine names; [cancel_order] is the handler
    above, the other eight bodies are [others]. *)
Definition functions_with (others : string -> JsValue -> Stores -> Completion string * Stores)
    : list FunctionHandler :=
  map (fun n => mkFunctionHandler n
                  (if String.eqb n "cancel_order" then cancel_order_handler else others n))
      registered_names.

(** Stands for the handlers that work on the menu and on prices, which
    are outside this development; no statement below runs it. *)
Definition outside_model (n : string) (args : JsValue) (st : Stores)
    : Completion string * Stores :=
  (Throw (Error ("handler outside the model: " +:+ n)), st).

(** ** [JSON.parse] on ASCII text with integer numbers

    Used to run the handlers on concrete data; their properties are
    stated for any parser. It agrees with [JSON.parse] on texts whose
    numbers are integer literals of at most 2^53 in size and whose
    strings have no [\u] escape, which is where it is run below; it
    rejects numbers with a fraction or an exponent and [\u] escapes,
    which [JSON.parse] accepts. *)

Definition is_ws (c : ascii) : bool :=
  let n := nat_of_ascii c in
  Nat.eqb n 32 || Nat.eqb n 9 || Nat.eqb n 10 || Nat.eqb n 13.

Fixpoint skip_ws (cs : list ascii) : list ascii :=
  match cs with
  | c :: rest => if is_ws c then skip_ws rest else cs
  | [] => []
  end.

Definition digit_value (c : ascii) : option Z :=
  let n := nat_of_ascii c in
  if Nat.leb 48 n && Nat.leb n 57 then Some (Z.of_nat (n - 48)) else None.

Definition is_digit (c : ascii) : bool :=
  match digit_value c with Some _ => true | None => false end.

Fixpoint parse_digits (cs : list ascii) (acc : Z) : Z * list ascii :=
  match cs with
  | c :: rest =>
      match digit_value c with
      | Some d => parse_digits rest (10 * acc + d)
      | None => (acc, cs)
      end
  | [] => (acc, [])
  end.

(** [0] or a digit string without a leading zero, with no fraction or
    exponent after it. *)
Definition parse_nat_literal (cs : list ascii) : option (Z * list ascii) :=
  match cs with
  | c :: rest =>
      match digit_value c with
      | Some d =>
          let (n, rest') := if Z.eqb d 0 then (0, rest) else parse_digits rest d in
          match rest' with
          | c' :: _ =>
              if is_digit c' || Ascii.eqb c' "."%char
                 || Ascii.eqb c' "e"%char || Ascii.eqb c' "E"%char
              then None else Some (n, rest')
          | [] => Some (n, rest')
          end
      | None => None
      end
  | [] => None
  end.

Definition unescape (c : ascii) : option ascii :=
  if Ascii.eqb c dquote then Some dquote
  else if Ascii.eqb c backslash then Some backslash
  else if Ascii.eqb c "/"%char then Some "/"%char
  else if Ascii.eqb c "b"%char then Some "008"%char
  else if Ascii.eqb c "f"%char then Some "012"%char
  else if Ascii.eqb c "n"%char then Some "010"%char
  else if Ascii.eqb c "r"%char then Some "013"%char
  else if Ascii.eqb c "t"%char then Some "009"%char
  else None.

(** The rest of a string literal, after its opening quote. *)
Fixpoint parse_string_body (cs : list ascii) (acc : list ascii)
    : option (string * list ascii) :=
  match cs with
  | [] => None
  | c :: rest =>
      if Ascii.eqb c dquote then Some (string_of_list_ascii (rev acc), rest)
      else if Ascii.eqb c backslash then
        match rest with
        | e :: rest' =>
            match unescape e with
            | Some ch => parse_string_body rest' (ch :: acc)
            | None => None
            end
        | [] => None
        end
      else if Nat.ltb (nat_of_ascii c) 32 || Nat.leb 128 (nat_of_ascii c) then None
      else parse_string_body rest (c :: acc)
  end.

Fixpoint strip_prefix (pre cs : list ascii) : option (list ascii) :=
  match pre, cs with
  | [], _ => Some cs
  | p :: pre', c :: cs' => if Ascii.eqb p c then strip_prefix pre' cs' else None
  | _ :: _, [] => None
  end.

Fixpoint parse_value (fuel : nat) (cs : list ascii) {struct fuel}
    : option (JsValue * list ascii) :=
  match fuel with
  | O => None
  | S f =>
      match skip_ws cs with
      | [] => None
      | c :: rest =>
          if Ascii.eqb c "{"%char then
            match skip_ws rest with
            | c' :: rest' =>
                if Ascii.eqb c' "}"%char then Some (JObj [], rest')
                else parse_members f (c' :: rest') []
            | [] => None
            end
          else if Ascii.eqb c "["%char then
            match skip_ws rest with
            | c' :: rest' =>
                if Ascii.eqb c' "]"%char then Some (JArr [], rest')
                else parse_elements f (c' :: rest') []
            | [] => None
            end
          else if Ascii.eqb c dquote then
            match parse_string_body rest [] with
            | Some (s, rest') => Some (JStr s, rest')
            | None => None
            end
          else if Ascii.eqb c "-"%char then
            match parse_nat_literal rest with
            | Some (n, rest') => Some (JNum (- n), rest')
            | None => None
            end
          else if is_digit c then
            match parse_nat_literal (c :: rest) with
            | Some (n, rest') => Some (JNum n, rest')
            | None => None
            end
          else
            match strip_prefix (list_ascii_of_string "null") (c :: rest),
                  strip_prefix (list_ascii_of_string "true") (c :: rest),
                  strip_prefix (list_ascii_of_string "false") (c :: rest) with
            | Some rest', _, _ => Some (JNull, rest')
            | _, Some rest', _ => Some (JBool true, rest')
            | _, _, Some rest' => Some (JBool false, rest')
            | _, _, _ => None
            end
      end
  end
with parse_elements (fuel : nat) (cs : list ascii) (acc : list JsValue) {struct fuel}
    : option (JsValue * list ascii) :=
  match fuel with
  | O => None
  | S f =>
      match parse_value f cs with
      | Some (v, rest) =>
          match skip_ws rest with
          | c :: rest' =>
              if Ascii.eqb c ","%char then parse_elements f rest' (v :: acc)
              else if Ascii.eqb c "]"%char then Some (JArr (rev (v :: acc)), rest')
              else None
          | [] => None
          end
      | None => None
      end
  end
with parse_members (fuel : nat) (cs : list ascii) (acc : list (string * JsValue))
    {struct fuel} : option (JsValue * list ascii) :=
  match fuel with
  | O => None
  | S f =>
      match skip_ws cs with
      | q :: rest =>
          if Ascii.eqb q dquote then
            match parse_string_body rest [] with
            | Some (k, rest1) =>
                match skip_ws rest1 with
                | colon :: rest2 =>
                    if Ascii.eqb colon ":"%char then
                      match parse_value f rest2 with
                      | Some (v, rest3) =>
                          match skip_ws rest3 with
                          | c :: rest4 =>
                              if Ascii.eqb c ","%char then parse_members f rest4 ((k, v) :: acc)
                              else if Ascii.eqb c "}"%char
                              then Some (JObj (rev ((k, v) :: acc)), rest4)
                              else None
                          | [] => None
                          end
                      | None => None
                      end
                    else None
                | [] => None
                end
            | None => None
            end
          else None
      | [] => None
      end
  end.

Definition JSON_parse_ascii (s : string) : option JsValue :=
  let cs := list_ascii_of_string s in
  match parse_value (S (List.length cs)) cs with
  | Some (v, rest) =>
      match skip_ws rest with
      | [] => Some v
      | _ :: _ => None
      end
  | None => None
  end.

(** ** Providers whose methods return normally *)

(** No method of the provider throws into its caller. [OpenAIProvider]
    is such a provider: its only call that can throw, [ws.send], sits in
    the [try] of [sendMessage]. *)
Class ProviderReturns (P : Type) `{AIProvider P} : Prop := {
  connect_returns : forall (fresh : nat) (p : P), completion (connect fresh p) = Return tt;
  sendAudio_returns : forall (a : string) (p : P), completion (sendAudio a p) = Return tt;
  sendFunctionResponse_returns :
    forall (n c r : string) (p : P), completion (sendFunctionResponse n c r p) = Return tt;
  interrupt_returns : forall p : P, completion (interrupt p) = Return tt;
  truncate_returns :
    forall (f : string -> Z -> M WsEffect P unit) (item : string) (ms : Z) (p : P),
      truncate = Some f -> completion (f item ms p) = Return tt;
  close_returns : forall p : P, completion (close p) = Return tt;
}.

(** ** Concrete providers, sessions and worlds to run the handlers on *)

(** A provider that implements the abstract class without the optional
    [truncate]. The repository ships none; the interface allows one, and
    the barge-in fallback is written for it. *)
Record InterruptOnlyProvider : Type := mkInterruptOnlyProvider { io_connected : bool }.

#[export] Instance InterruptOnlyProvider_AIProvider : AIProvider InterruptOnlyProvider := {
  connect := fun _ => modify (fun _ => mkInterruptOnlyProvider true);
  sendAudio := fun _ => ret tt;
  sendFunctionResponse := fun _ _ _ => ret tt;
  interrupt := ret tt;
  truncate := None;
  close := modify (fun _ => mkInterruptOnlyProvider false);
  isConnected := io_connected;
}.

Definition sample_config : AIProviderConfig :=
  mkAIProviderConfig DEFAULT_MODEL "sk-test" "Take the order." (Some "ash").

Definition sample_aiConfig : AIConfig := mkAIConfig DEFAULT_MODEL "ash" "Take the order.".

(** A provider whose socket has opened. *)
Definition live_provider : OpenAIProvider :=
  mkOpenAIProvider sample_config true (Some (mkWebSocket 2 OPEN)).

Definition twilio_socket : WebSocket := mkWebSocket 1 OPEN.

Definition fresh_stores : Stores := mkStores ∅ [] "default_session" ∅.

(** A call in progress on stream [S1]: the assistant's item [I1] began
    at telephony time 1000 and the latest media frame is at 1450. *)
Definition speaking_session : Session OpenAIProvider :=
  mkSession (Some twilio_socket) None (Some live_provider) (Some "S1") None
            (Some "I1") (Some 1000) (Some 1450) (Some (mkApiKeys (Some "sk-test"))).

Definition speaking_world : World OpenAIProvider :=
  mkWorld speaking_session fresh_stores sample_aiConfig 3.

(** The call on stream [S1] right after its provider connected: no
    utterance is in flight. *)
Definition idle_world : World OpenAIProvider :=
  mkWorld (mkSession (Some twilio_socket) None (Some live_provider) (Some "S1") None
                     None None (Some 0) (Some (mkApiKeys (Some "sk-test"))))
          fresh_stores sample_aiConfig 3.

(** The same call with timestamps beyond the safe integers: the item
    began at -3 and the latest media frame is at 2^53. *)
Definition far_world : World OpenAIProvider :=
  mkWorld (set_latestMediaTimestamp (Some 9007199254740992)
             (set_responseStartTimestamp (Some (-3)) speaking_session))
          fresh_stores sample_aiConfig 3.

(** The same call when the audio so far came without an item id. *)
Definition itemless_world : World OpenAIProvider :=
  mkWorld (set_lastAssistantItem None speaking_session) fresh_stores sample_aiConfig 3.

(** The same call on a provider that lacks [truncate]. *)
Definition fallback_world : World InterruptOnlyProvider :=
  mkWorld (mkSession (Some twilio_socket) None (Some (mkInterruptOnlyProvider true))
                     (Some "S1") None (Some "I1") (Some 1000) (Some 1450)
                     (Some (mkApiKeys (Some "sk-test"))))
          fresh_stores sample_aiConfig 3.

(** A telephony socket is attached and nothing else has happened. *)
Definition attached_world : World OpenAIProvider :=
  mkWorld (mkSession (Some twilio_socket) None None None None None None None
                     (Some (mkApiKeys (Some "sk-test"))))
          fresh_stores sample_aiConfig 2.

(** An earlier call on stream [S1] left a cart and placed an order. *)
Definition old_order : Order := mkOrder "o1" "S1" [mkCartItem "c1" "pizza_margherita" "Margherita Pizza" 1] pending.

Definition used_stores : Stores :=
  mkStores (<["S1" := mkCart "S1" [mkCartItem "c2" "pizza_pepperoni" "Pepperoni Pizza" 2]]> ∅)
           [("o1", old_order)] "S1" ∅.

Definition returning_world : World OpenAIProvider :=
  mkWorld (mkSession (Some twilio_socket) None None None None None None None
                     (Some (mkApiKeys (Some "sk-test"))))
          used_stores sample_aiConfig 2.

Definition sample_functions : list FunctionHandler := functions_with outside_model.

(** The call in progress, with the stores an earlier call left. *)
Definition ordering_world : World OpenAIProvider :=
  mkWorld speaking_session used_stores sample_aiConfig 3.

(** The [cancel_order] call for order [o1]. *)
Definition cancel_o1_call : FunctionCallData :=
  mkFunctionCallData "cancel_order" (JSON_stringify (JObj [("orderId", JStr "o1")])) "call_5".

(** A [start] envelope without its [start] member, and one of stream [S2]. *)
Definition bare_start_data : string := JSON_stringify (JObj [("event", JStr "start")]).

Definition start_S2_data : string :=
  JSON_stringify (JObj [("event", JStr "start"); ("start", JObj [("streamSid", JStr "S2")])]).

(** ** Notions the properties are stated with *)

Section Derived.

Context {P : Type} `{AIProvider P}.

(** What is left of a session once the telephony leg has closed: with an
    observer attached, the observer, the configuration it sent and the
    API keys; without one, nothing. *)
Definition after_twilio_close (s : Session P) : Session P :=
  if truthy_object (frontendConn s)
  then mkSession None (frontendConn s) None None (saved_config s) None None None (apiKeys s)
  else empty_session.

(** The method [handleTruncation] calls on a connected provider. *)
Definition barge_in_method (item : string) (ms : Z) : Method :=
  match truncate with
  | Some _ => m_truncate item ms
  | None => m_interrupt
  end.

(** The [clear] frame for stream [sid]. *)
Definition clear_frame (sid : string) : string :=
  JSON_stringify (JObj [("event", JStr "clear"); ("streamSid", JStr sid)]).

(** What that method does, as [handleTruncation] calls it. *)
Definition barge_in_body (item : string) (ms : Z) : M WsEffect P unit :=
  match truncate with
  | Some truncate_method => truncate_method item ms
  | None => interrupt
  end.

(** The barge-in step of [handleTruncation], once its guard has passed. *)
Definition barge_in_call (item : string) (ms : Z) (s : Session P) : Handler P unit :=
  match aiProvider s with
  | Some p =>
      if isConnected p
      then call_provider (barge_in_method item ms) (barge_in_body item ms) p
      else ret tt
  | None => ret tt
  end.

Definition clear_effects (s : Session P) : list Effect :=
  match twilioConn s, streamSid s with
  | Some sock, Some sid =>
      if isOpen (twilioConn s) && truthy_string (streamSid s)
      then [Io (WsSend (ws_id sock) (clear_frame sid))]
      else []
  | _, _ => []
  end.

(** A handler that leaves the order store as it found it, however it
    completes. *)
Definition keeps_orders {A : Type} (m : Handler P A) : Prop :=
  forall w : World P, orders (stores (state_after (m w))) = orders (stores w).

End Derived.

Arguments barge_in_method P {_} item ms.
Arguments barge_in_body P {_} item ms.
Arguments keeps_orders P {A} m.

(** The dispatcher's inputs used below. *)
Definition unknown_call : FunctionCallData := mkFunctionCallData "does_not_exist" "{}" "call_1".

Definition malformed_unknown_call : FunctionCallData :=
  mkFunctionCallData "does_not_exist" "{not json" "call_2".

Definition cancel_order_entry : FunctionHandler :=
  mkFunctionHandler "cancel_order" cancel_order_handler.

(** Unfolding of the monad's combinators and of the session's setters. *)
Ltac unfold_monad :=
  unfold bind, try_catch, get, modify, emit, ret, throw, update_session, update_stores,
         io, lift_completion, ws_close, completion, state_after, effects in *.

Ltac unfold_setters :=
  unfold set_twilioConn, set_frontendConn, set_aiProvider, set_streamSid, set_saved_config,
         set_lastAssistantItem, set_responseStartTimestamp, set_latestMediaTimestamp,
         set_apiKeys in *.

(** * Further code of the repository *)

(** ** [dataStorage.ts]: the rest of the two stores *)

(** [cartStorage.createCart]: a cart without items, stored under its session. *)
Definition createCart (sessionId : string) (st : Stores) : Cart * Stores :=
  let cart := mkCart sessionId [] in
  (cart, set_carts (<[sessionId := cart]>) st).

(** [cartStorage.updateCart]: stores [cart] under [sessionId], whatever
    session the cart itself names. *)
Definition updateCart (sessionId : string) (cart : Cart) (st : Stores) : Stores :=
  set_carts (<[sessionId := cart]>) st.

(** [orderStorage.createOrder]; [newId] is what [generateId()] returned. *)
Definition createOrder (newId : string) (sessionId : string) (items : list CartItem)
    (st0 : OrderStatus) (st : Stores) : Order * Stores :=
  let order := mkOrder newId sessionId items st0 in
  (order, mkStores (carts st) (orders_set newId order (orders st))
                   (currentSessionId st) (callSidBySessionId st)).

(** The keys of the order [Map], in its order. *)
Definition order_ids (st : Stores) : list string := map fst (orders st).

(** ** The call-context store of [aiProviders.ts] *)

Record Participants : Type := mkParticipants {
  p_from : option string;
  p_to : option string;
}.

(** The two maps of the call context: [participantsByCallSid], and
    [callSidBySessionId], which the stores above already hold. *)
Record CallContext : Type := mkCallContext {
  participantsByCallSid : gmap string Participants;
  ctx_stores : Stores;
}.

Definition setCallParticipantsForCallSid (callSid : string) (from to : option string)
    (c : CallContext) : CallContext :=
  if negb (truthy_string (Some callSid)) then c
  else mkCallContext (<[callSid := mkParticipants from to]> (participantsByCallSid c))
                     (ctx_stores c).

(** [linkSessionToCallSid], on the call context. *)
Definition linkSession (sessionId callSid : option string) (c : CallContext) : CallContext :=
  mkCallContext (participantsByCallSid c) (linkSessionToCallSid sessionId callSid (ctx_stores c)).

Definition getCallerForSession (sessionId : string) (c : CallContext) : option string :=
  match callSidBySessionId (ctx_stores c) !! sessionId with
  | Some callSid =>
      if negb (truthy_string (Some callSid)) then None
      else match participantsByCallSid c !! callSid with
           | Some ps => p_from ps
           | None => None
           end
  | None => None
  end.

Definition getTwilioNumberForSession (sessionId : string) (c : CallContext) : option string :=
  match callSidBySessionId (ctx_stores c) !! sessionId with
  | Some callSid =>
      if negb (truthy_string (Some callSid)) then None
      else match participantsByCallSid c !! callSid with
           | Some ps => p_to ps
           | None => None
           end
  | None => None
  end.

Definition clearSession (sessionId : string) (c : CallContext) : CallContext :=
  let callSid := callSidBySessionId (ctx_stores c) !! sessionId in
  mkCallContext
    (match callSid with
     | Some cs =>
         if truthy_string callSid then delete cs (participantsByCallSid c)
         else participantsByCallSid c
     | None => participantsByCallSid c
     end)
    (set_callSidBySessionId (delete sessionId) (ctx_stores c)).

(** ** [modelConfig.ts] and [aiConfig.ts]: choosing the model and the voice *)

Definition AVAILABLE_MODELS : list ModelConfig :=
  [ mkModelConfig "openai" "gpt-realtime" "GPT Realtime" "g711_ulaw" "g711_ulaw";
    mkModelConfig "openai" "gpt-realtime-mini" "GPT Realtime Mini" "g711_ulaw" "g711_ulaw";
    mkModelConfig "openai" "gpt-4o-realtime-preview" "GPT-4o Realtime Preview"
                  "g711_ulaw" "g711_ulaw";
    mkModelConfig "openai" "gpt-4o-mini-realtime-preview" "GPT-4o Mini Realtime Preview"
                  "g711_ulaw" "g711_ulaw" ].

Definition getModelConfig (prov mdl : string) : option ModelConfig :=
  List.find (fun m => String.eqb (provider m) prov && String.eqb (model m) mdl) AVAILABLE_MODELS.

Definition getModelsByProvider (prov : string) : list ModelConfig :=
  List.filter (fun m => String.eqb (provider m) prov) AVAILABLE_MODELS.

(** [s.split(':')] *)
Fixpoint split_colon (s : string) : list string :=
  match s with
  | EmptyString => [EmptyString]
  | String c rest =>
      if Ascii.eqb c ":"%char then EmptyString :: split_colon rest
      else match split_colon rest with
           | part :: parts => String c part :: parts
           | [] => [String c EmptyString]
           end
  end.

(** [getModelById]: the first two parts of the id are the provider and
    the model; an id without a colon has no model and finds nothing. *)
Definition getModelById (id : string) : option ModelConfig :=
  match split_colon id with
  | prov :: mdl :: _ => getModelConfig prov mdl
  | _ => None
  end.

Definition getModelId (m : ModelConfig) : string :=
  provider m +:+ ":" +:+ model m.

Definition AVAILABLE_VOICES : list string := [ "ash"; "ballad"; "coral"; "sage"; "verse" ].

Definition setCurrentModel (modelId : string) (c : AIConfig) : bool * AIConfig :=
  match getModelById modelId with
  | Some m => (true, mkAIConfig m (getCurrentVoice c) (getCurrentSystemPrompt c))
  | None => (false, c)
  end.

Definition setCurrentVoice (v : string) (c : AIConfig) : bool * AIConfig :=
  if existsb (String.eqb v) AVAILABLE_VOICES
  then (true, mkAIConfig (getCurrentModel c) v (getCurrentSystemPrompt c))
  else (false, c).

(** The configuration the server starts with, for a given prompt. *)
Definition initial_aiConfig (prompt : string) : AIConfig := mkAIConfig DEFAULT_MODEL "ash" prompt.

(** ** [OpenAIProvider.handleMessage] *)

(** What the provider emits to its listeners. The values are what the
    backend's message holds, absent fields included. *)
Inductive ProviderEvent : Type :=
| ev_audio (delta item_id : option JsValue)
| ev_functionCall (name arguments call_id : option JsValue)
| ev_speechStarted
| ev_rawMessage (event : JsValue).

(** [v.key], which throws a [TypeError] on [null]. *)
Definition js_prop {E S : Type} (key : string) (v : JsValue) : M E S (option JsValue) :=
  match v with
  | JNull => throw (Error ("Cannot read properties of null (reading '" +:+ key +:+ "')"))
  | _ => ret (js_get key v)
  end.

Definition is_JStr (expected : string) (v : option JsValue) : bool :=
  match v with
  | Some (JStr s) => String.eqb s expected
  | _ => false
  end.

Section HandleMessage.

Variable JSON_parse : string -> option JsValue.

(** The whole body sits in a [try]: data that is not JSON, and a
    property read on a missing [item], end in the [catch], which logs. *)
Definition handleMessage (data : string) : M ProviderEvent OpenAIProvider unit :=
  try_catch
    (match JSON_parse data with
     | None => throw (Error "Unexpected token in JSON")
     | Some event =>
         (let* type := js_prop "type" event in
          if is_JStr "response.audio.delta" type then
            emit (ev_audio (js_get "delta" event) (js_get "item_id" event))
          else if is_JStr "response.output_item.done" type then
            match js_get "item" event with
            | None => throw (Error "Cannot read properties of undefined (reading 'type')")
            | Some item =>
                let* item_type := js_prop "type" item in
                if is_JStr "function_call" item_type then
                  emit (ev_functionCall (js_get "name" item) (js_get "arguments" item)
                                        (js_get "call_id" item))
                else ret tt
            end
          else if is_JStr "input_audio_buffer.speech_started" type then emit ev_speechStarted
          else emit (ev_rawMessage event))%js
     end)
    (fun _ => ret tt).

End HandleMessage.

(** ** The events of the bridge *)

(** Every entry point of [sessionManager.ts]: its two exported
    connection handlers and the listeners they and
    [tryConnectAIProvider] register. *)
Inductive BridgeEvent : Type :=
| CallConnected (sock : WebSocket) (keys : ApiKeys)
| TwilioMessage (msg : option TwilioMsg)
| TwilioClosed
| FrontendConnected (sock : WebSocket)
| FrontendMessage (data : string)
| FrontendClosed
| ProviderAudio (audioData : string) (itemId : option string)
| ProviderFunctionCall (data : FunctionCallData)
| ProviderSpeechStarted
| ProviderError
| ProviderClosed.

Section Bridge.

Context {P : Type} `{AIProvider P}.
Variable createProvider : AIProviderConfig -> Completion P.
Variable functions : list FunctionHandler.
Variable JSON_parse : string -> option JsValue.

Definition dispatch (ev : BridgeEvent) : Handler P unit :=
  match ev with
  | CallConnected sock keys => handleCallConnection sock keys
  | TwilioMessage msg => handleTwilioMessage createProvider msg
  | TwilioClosed => onTwilioClose
  | FrontendConnected sock => handleFrontendConnection sock
  | FrontendMessage data => handleFrontendMessage JSON_parse data
  | FrontendClosed => onFrontendClose
  | ProviderAudio audioData itemId => handleAIAudio audioData itemId
  | ProviderFunctionCall data => onFunctionCall functions JSON_parse data
  | ProviderSpeechStarted => onSpeechStarted
  | ProviderError => onProviderError
  | ProviderClosed => onProviderClose
  end.

(** The state after a sequence of events, each handled to its end. *)
Fixpoint run_events (evs : list BridgeEvent) (w : World P) : World P :=
  match evs with
  | [] => w
  | ev :: rest => run_events rest (state_after (dispatch ev w))
  end.

(** [getCurrentSessionId] *)
Definition getCurrentSessionId (w : World P) : option string := streamSid (session w).

(** The timing fields agree: an item in flight has a start time, and a
    start time has a telephony socket and a stream to belong to. *)
Definition timing_consistent (s : Session P) : Prop :=
  (is_defined (lastAssistantItem s) = true -> is_defined (responseStartTimestamp s) = true) /\
  (is_defined (responseStartTimestamp s) = true ->
   truthy_object (twilioConn s) = true /\ truthy_string (streamSid s) = true).

End Bridge.

Arguments timing_consistent {P} s.

(** The server before any connection: an empty session. *)
Definition initial_world (st : Stores) (c : AIConfig) : World OpenAIProvider :=
  mkWorld empty_session st c 0.

(** ** The telephony message listener, from the raw data on *)

(** [msg.name], about to be read a member of: that read throws a
    [TypeError] when [msg.name] is [undefined] or [null]. *)
Definition read_member (name key : string) (msg : JsValue) : Completion JsValue :=
  match js_get name msg with
  | None =>
      Throw (Error ("Cannot read properties of undefined (reading '" +:+ key +:+ "')"))
  | Some JNull =>
      Throw (Error ("Cannot read properties of null (reading '" +:+ key +:+ "')"))
  | Some v => Return v
  end.

(** Truthiness of a member that may be [undefined]. *)
Definition js_truthy (v : option JsValue) : bool :=
  match v with
  | Some x => negb (js_falsy x)
  | None => false
  end.

(** A member the session declares a [string]: the string, or
    [undefined]. A value of another type is not read ([None]). *)
Definition read_string (v : option JsValue) : option (option string) :=
  match v with
  | None => Some None
  | Some (JStr s) => Some (Some s)
  | Some _ => None
  end.

(** What [handleTwilioMessage] reads off the parsed envelope [msg]
    before it changes anything: [msg.event], then
    [msg.start.streamSid] and [msg.start?.callSid || msg.start?.call_sid]
    of a [start] envelope, [msg.media.timestamp] and [msg.media.payload]
    of a [media] envelope. The result is [Throw] when a read throws.
    It is [None] when a member holds a value of another type than the
    [Session] field or the parameter it goes to declares (a [streamSid]
    or a [payload] that is not a string, a [timestamp] that is not a
    number): the session of this development cannot hold such a value,
    and the listener is not modelled on such an envelope. *)
Definition readTwilioMessage (msg : JsValue) : option (Completion TwilioMsg) :=
  let event := js_get "event" msg in
  if is_JStr "start" event then
    match read_member "start" "streamSid" msg with
    | Throw e => Some (Throw e)
    | Return start =>
        let callSid := js_get "callSid" start in
        let startCallSid := if js_truthy callSid then callSid else js_get "call_sid" start in
        match read_string (js_get "streamSid" start), read_string startCallSid with
        | Some sid, Some cs => Some (Return (StartMsg sid cs))
        | _, _ => None
        end
    end
  else if is_JStr "media" event then
    match read_member "media" "timestamp" msg with
    | Throw e => Some (Throw e)
    | Return media =>
        match js_get "timestamp" media, js_get "payload" media with
        | Some (JNum t), Some (JStr payload) => Some (Return (MediaMsg t payload))
        | _, _ => None
        end
    end
  else if is_JStr "close" event then Some (Return CloseMsg)
  else Some (Return OtherMsg).

Section RawData.

Context {P : Type} `{AIProvider P}.
Variable createProvider : AIProviderConfig -> Completion P.
Variable JSON_parse : string -> option JsValue.

(** [handleTwilioMessage(data)] as the socket calls it: [parseMessage],
    the reads of the envelope, and then the branch of
    [handleTwilioMessage] above on what was read. [None] where
    [readTwilioMessage] is. *)
Definition handleTwilioMessage_data (data : string) : option (Handler P unit) :=
  match JSON_parse data with
  | None => Some (ret tt)
  | Some msg =>
      if js_falsy msg then Some (ret tt)
      else
        match readTwilioMessage msg with
        | Some read =>
            Some (let* m := lift_completion read in
                  handleTwilioMessage createProvider (Some m))%js
        | None => None
        end
  end.

(** The [.then] and [.catch] callbacks of the [functionCall] listener,
    run when the promise of [handleFunctionCall] has settled, with
    [settled] its outcome, on the session as it is by then. *)
Definition onFunctionCallSettled (data : FunctionCallData) (settled : Completion string)
    : Handler P unit :=
  try_catch
    (let* output := lift_completion settled in
     let* w := get in
     match aiProvider (session w) with
     | Some p =>
         call_provider (m_sendFunctionResponse (fc_name data) (fc_call_id data) output)
                       (sendFunctionResponse (fc_name data) (fc_call_id data) output) p
     | None => ret tt
     end)%js
    (fun _ => ret tt).

End RawData.

(** [v] is [undefined] or [null]. *)
Definition nullish (v : option JsValue) : bool :=
  match v with
  | None | Some JNull => true
  | Some _ => false
  end.

(** A [start] envelope without its [start] member, or a [media]
    envelope without its [media] member. *)
Definition lacks_its_member (msg : JsValue) : bool :=
  (is_JStr "start" (js_get "event" msg) && nullish (js_get "start" msg))
  || (is_JStr "media" (js_get "event" msg) && nullish (js_get "media" msg)).

(** ** Notions the further properties are stated with *)

(** No [:] in the string. *)
Fixpoint no_colon (s : string) : bool :=
  match s with
  | EmptyString => true
  | String c rest => negb (Ascii.eqb c ":"%char) && no_colon rest
  end.

(** What the admin panel can do to the model and the voice. *)
Inductive ConfigOp : Type :=
| SetModel (modelId : string)
| SetVoice (v : string).

Definition apply_config_op (c : AIConfig) (op : ConfigOp) : AIConfig :=
  match op with
  | SetModel modelId => snd (setCurrentModel modelId c)
  | SetVoice v => snd (setCurrentVoice v c)
  end.

(** A frame that went out on the socket [sock], open, of a connected provider. *)
Definition sent_on_own_open_socket (p : OpenAIProvider) (e : WsEffect) : Prop :=
  match e with
  | WsSend id _ =>
      connected p = true /\ exists sock, ws p = Some sock /\ ws_id sock = id /\ readyState sock = OPEN
  | _ => False
  end.

(** What a run satisfies, by how it completes: [Q] if it returns, [R]
    if it throws; each sees the state left and the effects had. *)
Definition wpx {E S A : Type} (m : M E S A)
    (Q : A -> S -> list E -> Prop) (R : JsError -> S -> list E -> Prop) (s : S) : Prop :=
  match m s with
  | (Return a, s', es) => Q a s' es
  | (Throw e, s', es) => R e s' es
  end.

(** The effects of handling a sequence of events, in order. *)
Fixpoint trace_events {P : Type} `{AIProvider P}
    (createProvider : AIProviderConfig -> Completion P) (functions : list FunctionHandler)
    (JSON_parse : string -> option JsValue) (evs : list BridgeEvent) (w : World P)
    : list Effect :=
  match evs with
  | [] => []
  | ev :: rest =>
      effects (dispatch createProvider functions JSON_parse ev w) ++
      trace_events createProvider functions JSON_parse rest
                   (state_after (dispatch createProvider functions JSON_parse ev w))
  end.

(** An audio chunk from the provider or a media frame from the telephony leg. *)
Definition audio_or_media (ev : BridgeEvent) : Prop :=
  match ev with
  | ProviderAudio _ _ => True
  | TwilioMessage (Some (MediaMsg _ _)) => True
  | _ => False
  end.

(** The [media] envelopes of a sequence of frames (timestamp, payload). *)
Definition media_events (frames : list (Z * string)) : list BridgeEvent :=
  map (fun f => TwilioMessage (Some (MediaMsg (fst f) (snd f)))) frames.

(** * Properties *)

(** ** The methods of [OpenAIProvider] return normally *)

Lemma OpenAI_sendMessage_returns (msg : JsValue) (p : OpenAIProvider) :
  completion (OpenAI.sendMessage msg p) = Return tt /\
  state_after (OpenAI.sendMessage msg p) = p.
Proof.
  unfold OpenAI.sendMessage, bind, get, try_catch, ws_send, completion, state_after.
  destruct p as [cfg conn [[id st]|]]; simpl; [|auto].
  destruct conn; simpl; [|auto].
  destruct st; simpl; auto.
Qed.

Lemma OpenAI_sendMessage_run (msg : JsValue) (p : OpenAIProvider) :
  exists es, OpenAI.sendMessage msg p = (Return tt, p, es).
Proof.
  destruct (OpenAI_sendMessage_returns msg p) as [Hc Hs].
  destruct (OpenAI.sendMessage msg p) as [[c s] es]; simpl in *.
  unfold completion, state_after in *; simpl in *; subst. eauto.
Qed.

Lemma OpenAIProvider_returns : ProviderReturns OpenAIProvider.
Proof.
  split; simpl.
  - intros fresh p. reflexivity.
  - intros a p. unfold OpenAI.sendAudio, bind, get, completion; simpl.
    destruct (negb (connected p) || negb (truthy_object (ws p))); simpl; [reflexivity|].
    destruct (OpenAI_sendMessage_run
                (JObj [("type", JStr "input_audio_buffer.append"); ("audio", JStr a)]) p)
      as [es ->]. reflexivity.
  - intros n c r p. unfold OpenAI.sendFunctionResponse, bind, get, completion; simpl.
    destruct (negb (connected p) || negb (truthy_object (ws p))); simpl; [reflexivity|].
    match goal with |- context [OpenAI.sendMessage ?m p] =>
      destruct (OpenAI_sendMessage_run m p) as [es ->] end.
    match goal with |- context [OpenAI.sendMessage ?m p] =>
      destruct (OpenAI_sendMessage_run m p) as [es' ->] end.
    reflexivity.
  - intros p. reflexivity.
  - intros f item ms p [= <-]. unfold OpenAI.truncate, bind, get, completion; simpl.
    destruct (negb (connected p) || negb (truthy_object (ws p))); simpl; [reflexivity|].
    match goal with |- context [OpenAI.sendMessage ?m p] =>
      destruct (OpenAI_sendMessage_run m p) as [es ->] end.
    reflexivity.
  - intros p. unfold OpenAI.close, bind, get, modify, ws_close, emit, completion; simpl.
    destruct (ws p); reflexivity.
Qed.

#[export] Existing Instance OpenAIProvider_returns.

(** ** Runs of the basic steps *)

Lemma completion_Return_tt {E S : Type} (r : Completion unit * S * list E) :
  completion r = Return tt -> exists s es, r = (Return tt, s, es).
Proof.
  destruct r as [[c s] es]. unfold completion. simpl. intros ->. eauto.
Qed.

Section Runs.

Context {P : Type} `{AIProvider P}.

Lemma session_eta (s : Session P) :
  mkSession (twilioConn s) (frontendConn s) (aiProvider s) (streamSid s) (saved_config s)
            (lastAssistantItem s) (responseStartTimestamp s) (latestMediaTimestamp s)
            (apiKeys s) = s.
Proof. destruct s. reflexivity. Qed.

Lemma world_eta (w : World P) :
  mkWorld (session w) (stores w) (aiConfig w) (next_socket w) = w.
Proof. destruct w. reflexivity. Qed.

Lemma set_aiProvider_same (s : Session P) : set_aiProvider (aiProvider s) s = s.
Proof. apply session_eta. Qed.

(** A call of a method that returns normally. *)
Lemma call_provider_run (m : Method) (body : M WsEffect P unit) (p : P) (w : World P) :
  completion (body p) = Return tt ->
  call_provider m body p w =
    (Return tt,
     mkWorld (set_aiProvider (Some (state_after (body p))) (session w)) (stores w)
             (aiConfig w) (next_socket w),
     Invoke m :: map ProviderIo (effects (body p))).
Proof.
  intros Hc. apply completion_Return_tt in Hc as (p' & es & Hrun).
  unfold call_provider. rewrite Hrun. reflexivity.
Qed.

Lemma cleanupConnection_run (sock : option WebSocket) (w : World P) :
  cleanupConnection sock w =
    (Return tt, w,
     match sock with
     | Some c => if isOpen sock then [Io (WsClose (ws_id c))] else []
     | None => []
     end).
Proof.
  unfold cleanupConnection. destruct sock as [c|]; [|reflexivity].
  destruct (isOpen (Some c)); reflexivity.
Qed.

Lemma jsonSend_run (sock : option WebSocket) (obj : JsValue) (w : World P) :
  jsonSend sock obj w =
    (Return tt, w,
     match sock with
     | Some c => if isOpen sock then [Io (WsSend (ws_id c) (JSON_stringify obj))] else []
     | None => []
     end).
Proof.
  unfold jsonSend. destruct sock as [[id st]|]; [|reflexivity].
  destruct st; reflexivity.
Qed.

(** [cleanupAIProvider] closes the provider, drops the reference, and
    empties the session when no socket is attached. *)
Lemma cleanupAIProvider_run `{!ProviderReturns P} (w : World P) :
  cleanupAIProvider w =
    (Return tt,
     mkWorld (if negb (truthy_object (twilioConn (session w)))
                 && negb (truthy_object (frontendConn (session w)))
              then empty_session
              else set_aiProvider None (session w))
             (stores w) (aiConfig w) (next_socket w),
     match aiProvider (session w) with
     | Some p => Invoke m_close :: map ProviderIo (effects (close p))
     | None => []
     end).
Proof.
  unfold cleanupAIProvider.
  destruct (aiProvider (session w)) as [p|] eqn:Hp.
  - unfold bind at 1. unfold get at 1. rewrite Hp.
    unfold bind at 1. unfold bind at 1.
    rewrite (call_provider_run m_close close p w (close_returns p)).
    unfold_monad. simpl.
    destruct (twilioConn (session w)), (frontendConn (session w)); simpl;
      rewrite ?app_nil_r; reflexivity.
  - unfold_monad. simpl. rewrite Hp. simpl.
    destruct (twilioConn (session w)) eqn:Ht, (frontendConn (session w)) eqn:Hf; simpl;
      try reflexivity;
      rewrite <- Hp, set_aiProvider_same, world_eta; reflexivity.
Qed.

End Runs.

(** ** Teardown *)

Section Teardown.

Context {P : Type} `{AIProvider P} `{!ProviderReturns P}.

Lemma onTwilioClose_run (w : World P) :
  onTwilioClose w =
    (Return tt,
     mkWorld (after_twilio_close (session w)) (stores w) (aiConfig w) (next_socket w),
     match aiProvider (session w) with
     | Some p => Invoke m_close :: map ProviderIo (effects (close p))
     | None => []
     end ++
     match twilioConn (session w) with
     | Some c => if isOpen (twilioConn (session w)) then [Io (WsClose (ws_id c))] else []
     | None => []
     end).
Proof.
  unfold onTwilioClose, after_twilio_close.
  unfold bind at 1. rewrite cleanupAIProvider_run.
  unfold bind at 1. unfold get at 1.
  repeat (unfold bind at 1). simpl.
  rewrite cleanupConnection_run.
  unfold_monad. simpl.
  destruct (twilioConn (session w)) as [c|] eqn:Ht,
           (frontendConn (session w)) as [f|] eqn:Hf; simpl;
    rewrite ?Ht, ?Hf, ?app_nil_r; simpl; try reflexivity;
    unfold_setters; simpl; rewrite ?Ht, ?Hf, ?app_nil_r; reflexivity.
Qed.

Lemma after_twilio_close_idem (s : Session P) :
  after_twilio_close (after_twilio_close s) = after_twilio_close s.
Proof.
  unfold after_twilio_close. destruct (frontendConn s); reflexivity.
Qed.

(** C7. Teardown is idempotent: on every state of the bridge the
    telephony socket's close listener returns normally, and running it a
    second time returns normally too, does nothing to the outside world
    and leaves the session (and the rest of the state) exactly as the
    first run left it. *)
Theorem twilio_close_idempotent (w : World P) :
  let once := onTwilioClose w in
  let twice := onTwilioClose (state_after once) in
  completion once = Return tt /\
  completion twice = Return tt /\
  session (state_after twice) = session (state_after once) /\
  state_after twice = state_after once /\
  effects twice = [].
Proof.
  assert (Hp : aiProvider (after_twilio_close (session w)) = None)
    by (unfold after_twilio_close; destruct (frontendConn (session w)); reflexivity).
  assert (Ht : twilioConn (after_twilio_close (session w)) = None)
    by (unfold after_twilio_close; destruct (frontendConn (session w)); reflexivity).
  cbv zeta. rewrite (onTwilioClose_run w).
  unfold completion, state_after, effects. cbn [fst snd].
  rewrite onTwilioClose_run. cbn [fst snd session stores aiConfig next_socket].
  rewrite after_twilio_close_idem, Hp, Ht. auto.
Qed.

(** C8. While the telephony leg is attached, the provider's [error] and
    [close] listeners change one field of the session, [aiProvider],
    which they clear: the telephony socket, the stream id and the
    observer socket stay as they were, and so does every other field. *)
Theorem provider_failure_clears_only_provider (w : World P) (sock : WebSocket) :
  twilioConn (session w) = Some sock ->
  (completion (onProviderError w) = Return tt /\
   session (state_after (onProviderError w)) = set_aiProvider None (session w) /\
   twilioConn (session (state_after (onProviderError w))) = Some sock /\
   streamSid (session (state_after (onProviderError w))) = streamSid (session w) /\
   frontendConn (session (state_after (onProviderError w))) = frontendConn (session w)) /\
  (completion (onProviderClose w) = Return tt /\
   session (state_after (onProviderClose w)) = set_aiProvider None (session w) /\
   twilioConn (session (state_after (onProviderClose w))) = Some sock /\
   streamSid (session (state_after (onProviderClose w))) = streamSid (session w) /\
   frontendConn (session (state_after (onProviderClose w))) = frontendConn (session w)).
Proof.
  intros Ht. unfold onProviderError, onProviderClose.
  rewrite cleanupAIProvider_run. unfold completion, state_after. simpl.
  rewrite Ht. simpl. auto 10.
Qed.

End Teardown.

(** ** Barge-in *)

Section BargeIn.

Context {P : Type} `{AIProvider P}.

Lemma truthy_string_Some (s : string) : s <> EmptyString -> truthy_string (Some s) = true.
Proof. destruct s; [congruence | reflexivity]. Qed.

Lemma round_to_double_safe (z : Z) :
  - MAX_SAFE_INTEGER <= z <= MAX_SAFE_INTEGER -> round_to_double z = z.
Proof.
  unfold MAX_SAFE_INTEGER. intros Hz. unfold round_to_double.
  assert (Hlog : Z.log2 (Z.abs z) < 53).
  { destruct (Z.eq_dec (Z.abs z) 0) as [-> | Hnz]; [reflexivity|].
    apply Z.log2_lt_pow2; [lia|]. change (2 ^ 53) with 9007199254740992. lia. }
  destruct (Z.leb_spec (Z.log2 (Z.abs z) - 52) 0); [reflexivity | lia].
Qed.

Lemma audio_end_ms_max (latest start : option Z) :
  - MAX_SAFE_INTEGER <= or_zero latest - or_zero start <= MAX_SAFE_INTEGER ->
  audio_end_ms latest start = Z.max 0 (or_zero latest - or_zero start).
Proof.
  intros Hsafe. unfold audio_end_ms, js_sub. rewrite (round_to_double_safe _ Hsafe).
  destruct (Z.gtb_spec (or_zero latest - or_zero start) 0); lia.
Qed.

Lemma audio_end_ms_nonneg (latest start : option Z) : 0 <= audio_end_ms latest start.
Proof.
  unfold audio_end_ms.
  destruct (Z.gtb_spec (js_sub (or_zero latest) (or_zero start)) 0); lia.
Qed.

Lemma barge_in_body_returns `{!ProviderReturns P} (item : string) (ms : Z) (p : P) :
  completion (barge_in_body P item ms p) = Return tt.
Proof.
  unfold barge_in_body. destruct truncate as [f|] eqn:Hf.
  - apply (truncate_returns f item ms p Hf).
  - apply interrupt_returns.
Qed.

Lemma invocations_app (a b : list Effect) :
  invocations (a ++ b) = invocations a ++ invocations b.
Proof. unfold invocations. apply flat_map_app. Qed.

Lemma invocations_ProviderIo (es : list WsEffect) : invocations (map ProviderIo es) = [].
Proof. induction es as [|e es IH]; [reflexivity | exact IH]. Qed.

Lemma own_io_app (a b : list Effect) : own_io (a ++ b) = own_io a ++ own_io b.
Proof. unfold own_io. apply flat_map_app. Qed.

Lemma own_io_ProviderIo (es : list WsEffect) : own_io (map ProviderIo es) = [].
Proof. induction es as [|e es IH]; [reflexivity | exact IH]. Qed.

Lemma handleTruncation_unfold (w : World P) (item : string) (r : Z) :
  lastAssistantItem (session w) = Some item ->
  item <> EmptyString ->
  responseStartTimestamp (session w) = Some r ->
  handleTruncation w =
    match barge_in_call item (audio_end_ms (latestMediaTimestamp (session w)) (Some r))
                        (session w) w with
    | (Return _, w1, es1) =>
        (Return tt,
         mkWorld (set_responseStartTimestamp None (set_lastAssistantItem None (session w1)))
                 (stores w1) (aiConfig w1) (next_socket w1),
         es1 ++ clear_effects (session w1))
    | (Throw e, w1, es1) => (Throw e, w1, es1)
    end.
Proof.
  intros Hitem Hne Hstart.
  unfold handleTruncation. unfold bind at 1. unfold get at 1.
  cbn match. rewrite Hitem, Hstart, (truthy_string_Some item Hne). cbn [negb orb is_defined].
  repeat (unfold bind at 1).
  match goal with |- context [match ?call w with _ => _ end] =>
    replace (call w) with
      (barge_in_call item (audio_end_ms (latestMediaTimestamp (session w)) (Some r))
                     (session w) w)
  end.
  2:{ unfold barge_in_call, barge_in_method, barge_in_body.
      destruct (aiProvider (session w)) as [p|]; [|reflexivity].
      destruct (isConnected p); [|reflexivity].
      destruct truncate; reflexivity. }
  destruct (barge_in_call _ _ _ w) as [[[u|e] w1] es1]; [|reflexivity].
  unfold get at 1. cbn match.
  unfold clear_effects.
  destruct (streamSid (session w1)) as [sid|] eqn:Hsid.
  - destruct (twilioConn (session w1)) as [sock|] eqn:Hsock.
    + cbn [truthy_object andb].
      destruct (truthy_string (Some sid)) eqn:Hts.
      * rewrite jsonSend_run. unfold_monad. cbn.
        unfold clear_frame.
        destruct (readyState_eqb (readyState sock) OPEN); cbn;
          rewrite ?app_nil_r; destruct u; reflexivity.
      * unfold_monad. cbn. rewrite andb_false_r, ?app_nil_r. destruct u; reflexivity.
    + unfold_monad. cbn. rewrite ?app_nil_r. destruct u; reflexivity.
  - unfold_monad. cbn.
    destruct (twilioConn (session w1)); rewrite ?app_nil_r; destruct u; reflexivity.
Qed.

Lemma barge_in_call_invocations (item : string) (ms : Z) (w : World P) :
  invocations (effects (barge_in_call item ms (session w) w)) =
    match aiProvider (session w) with
    | Some p => if isConnected p then [barge_in_method P item ms] else []
    | None => []
    end.
Proof.
  unfold barge_in_call.
  destruct (aiProvider (session w)) as [p|]; [|reflexivity].
  destruct (isConnected p); [|reflexivity].
  unfold call_provider. destruct (barge_in_body P item ms p) as [[c p'] es].
  unfold effects. cbn [snd invocations flat_map].
  change (flat_map _ (map ProviderIo es)) with (invocations (map ProviderIo es)).
  rewrite invocations_ProviderIo. reflexivity.
Qed.

Lemma clear_effects_invocations (s : Session P) : invocations (clear_effects s) = [].
Proof.
  unfold clear_effects. destruct (twilioConn s), (streamSid s); try reflexivity.
  destruct (_ && _); reflexivity.
Qed.

(** Whatever the provider's method does, [handleTruncation] invokes at
    most one method, and which one is decided by the session alone. *)
Lemma handleTruncation_invocations (w : World P) (item : string) (r : Z) :
  lastAssistantItem (session w) = Some item ->
  item <> EmptyString ->
  responseStartTimestamp (session w) = Some r ->
  invocations (effects (handleTruncation w)) =
    match aiProvider (session w) with
    | Some p =>
        if isConnected p
        then [barge_in_method P item (audio_end_ms (latestMediaTimestamp (session w)) (Some r))]
        else []
    | None => []
    end.
Proof.
  intros Hitem Hne Hstart.
  rewrite (handleTruncation_unfold w item r Hitem Hne Hstart).
  rewrite <- barge_in_call_invocations.
  destruct (barge_in_call _ _ _ w) as [[[u|e] w1] es1]; unfold effects; cbn [snd].
  - rewrite invocations_app, clear_effects_invocations, app_nil_r. reflexivity.
  - reflexivity.
Qed.



End BargeIn.

(** ** The function-call dispatcher *)

Section Dispatcher.

Context {P : Type} `{AIProvider P}.
Variable functions : list FunctionHandler.
Variable JSON_parse : string -> option JsValue.

(** C3, as the code has it. A call whose name no registered handler
    carries makes [handleFunctionCall] throw an [Error] whose message
    names the function; nothing else happens. The [functionCall] listener
    catches that error: it returns normally, sends no function response
    to the provider and leaves the state as it was. *)
Theorem unknown_function_throws_and_is_caught (item : FunctionCallData) (w : World P) :
  List.find (fun f => String.eqb (schema_name f) (fc_name item)) functions = None ->
  handleFunctionCall functions JSON_parse item w =
    (Throw (Error ("No handler found for function: " +:+ fc_name item)), w, []) /\
  onFunctionCall functions JSON_parse item w = (Return tt, w, []).
Proof.
  intros Hfind. unfold onFunctionCall, handleFunctionCall.
  rewrite Hfind. split; reflexivity.
Qed.

(** C4, as the code has it. For a call whose name a registered handler
    carries: if the arguments do not parse as JSON, [handleFunctionCall]
    returns the payload [{"error":"Invalid JSON arguments for function
    call."}]; if they parse and the handler throws, it returns the
    payload [{"error":"Error running function <name>: <message>"}] and
    keeps what the handler did to the stores. In both cases it returns
    normally and has no effect of its own. *)
Theorem dispatch_failures_become_error_payloads
    (item : FunctionCallData) (fnDef : FunctionHandler) (w : World P) :
  List.find (fun f => String.eqb (schema_name f) (fc_name item)) functions = Some fnDef ->
  (JSON_parse (fc_arguments item) = None ->
   handleFunctionCall functions JSON_parse item w =
     (Return (JSON_stringify (JObj [("error", JStr "Invalid JSON arguments for function call.")])),
      w, [])) /\
  (forall (args : JsValue) (err : JsError) (st : Stores),
      JSON_parse (fc_arguments item) = Some args ->
      handler fnDef args (stores w) = (Throw err, st) ->
      handleFunctionCall functions JSON_parse item w =
        (Return (JSON_stringify
                   (JObj [("error",
                           JStr ("Error running function " +:+ fc_name item +:+ ": "
                                 +:+ message err))])),
         mkWorld (session w) st (aiConfig w) (next_socket w), [])).
Proof.
  intros Hfind. unfold handleFunctionCall. rewrite Hfind. split.
  - intros ->. reflexivity.
  - intros args err st -> Hthrow.
    unfold try_catch, run_handler. rewrite Hthrow. reflexivity.
Qed.

End Dispatcher.

(** ** The telephony leg *)

Section Telephony.

Context {P : Type} `{AIProvider P}.
Variable createProvider : AIProviderConfig -> Completion P.

(** C6, as the code has it. A [media] event overwrites
    [latestMediaTimestamp] with the timestamp of its frame, whatever the
    value was before. *)
Theorem media_overwrites_latestMediaTimestamp
    (w : World P) (timestamp : Z) (payload : string) :
  latestMediaTimestamp
    (session (state_after (handleTwilioMessage createProvider
                             (Some (MediaMsg timestamp payload)) w))) = Some timestamp.
Proof.
  unfold handleTwilioMessage. unfold bind at 1.
  unfold update_session at 1. unfold modify at 1.
  unfold bind at 1. unfold get at 1. cbn [session].
  unfold set_latestMediaTimestamp at 1. cbn [aiProvider].
  destruct (aiProvider (session w)) as [p|]; [|reflexivity].
  destruct (isConnected p); [|reflexivity].
  unfold call_provider. destruct (sendAudio payload p) as [[c p'] es]. reflexivity.
Qed.

End Telephony.

(** ** The OpenAI provider and the factory *)

(** C9. On an [OpenAIProvider] whose [isConnected()] is false,
    [sendAudio] is a no-op for every payload: it returns normally, puts
    nothing on the socket and leaves the provider as it was. *)
Theorem sendAudio_when_not_connected (p : OpenAIProvider) (audioData : string) :
  OpenAI.isConnected p = false ->
  OpenAI.sendAudio audioData p = (Return tt, p, []).
Proof.
  unfold OpenAI.isConnected, OpenAI.sendAudio. intros Hc.
  unfold bind, get. rewrite Hc. reflexivity.
Qed.

(** C10. [createAIProvider] throws exactly when the configured provider
    name is not [openai]; otherwise it returns a provider whose
    [isConnected()] is false. *)
Theorem createAIProvider_throws_iff_not_openai (cfg : AIProviderConfig) :
  match createAIProvider cfg with
  | Throw _ => provider (modelConfig cfg) <> "openai"
  | Return p => provider (modelConfig cfg) = "openai" /\ OpenAI.isConnected p = false
  end.
Proof.
  unfold createAIProvider.
  destruct (String.eqb_spec (provider (modelConfig cfg)) "openai") as [Heq|Hne]; simpl; auto.
Qed.

(** ** The stores at call start *)

Section OrdersFrame.

Context {P : Type} `{AIProvider P}.
Variable createProvider : AIProviderConfig -> Completion P.

Lemma keeps_orders_ret {A : Type} (a : A) : keeps_orders P (ret a).
Proof. intros w. reflexivity. Qed.

Lemma keeps_orders_get : keeps_orders P get.
Proof. intros w. reflexivity. Qed.

Lemma keeps_orders_bind {A B : Type} (m : Handler P A) (k : A -> Handler P B) :
  keeps_orders P m -> (forall a, keeps_orders P (k a)) -> keeps_orders P (bind m k).
Proof.
  intros Hm Hk w. unfold bind. specialize (Hm w).
  destruct (m w) as [[[a|e] w1] es1]; unfold state_after in *; cbn [fst snd] in *.
  - specialize (Hk a w1). destruct (k a w1) as [[r w2] es2].
    unfold state_after in Hk. cbn [fst snd] in *. congruence.
  - exact Hm.
Qed.

Lemma keeps_orders_try_catch {A : Type} (m : Handler P A) (h : JsError -> Handler P A) :
  keeps_orders P m -> (forall e, keeps_orders P (h e)) -> keeps_orders P (try_catch m h).
Proof.
  intros Hm Hh w. unfold try_catch. specialize (Hm w).
  destruct (m w) as [[[a|e] w1] es1]; unfold state_after in *; cbn [fst snd] in *.
  - exact Hm.
  - specialize (Hh e w1). destruct (h e w1) as [[r w2] es2].
    unfold state_after in Hh. cbn [fst snd] in *. congruence.
Qed.

Lemma keeps_orders_update_session (f : Session P -> Session P) :
  keeps_orders P (update_session f).
Proof. intros w. reflexivity. Qed.

Lemma keeps_orders_update_stores (f : Stores -> Stores) :
  (forall st, orders (f st) = orders st) -> keeps_orders P (update_stores f).
Proof. intros Hf w. apply Hf. Qed.

Lemma keeps_orders_fresh_socket : keeps_orders P fresh_socket.
Proof. intros w. reflexivity. Qed.

Lemma keeps_orders_lift_completion {A : Type} (c : Completion A) :
  keeps_orders P (lift_completion c).
Proof. intros w. reflexivity. Qed.

Lemma keeps_orders_call_provider {A : Type} (m : Method) (body : M WsEffect P A) (p : P) :
  keeps_orders P (call_provider m body p).
Proof. intros w. unfold call_provider. destruct (body p) as [[r p'] es]. reflexivity. Qed.

Lemma keeps_orders_io {A : Type} (m : M WsEffect (World P) A) :
  (forall w, stores (state_after (m w)) = stores w) -> keeps_orders P (io m).
Proof.
  intros Hm w. unfold io. specialize (Hm w). destruct (m w) as [[r w'] es].
  unfold state_after in *. cbn [fst snd] in *. congruence.
Qed.

Lemma keeps_orders_if {A : Type} (b : bool) (m1 m2 : Handler P A) :
  keeps_orders P m1 -> keeps_orders P m2 -> keeps_orders P (if b then m1 else m2).
Proof. destruct b; auto. Qed.

Create HintDb orders_frame.
#[local] Hint Resolve keeps_orders_ret keeps_orders_get keeps_orders_update_session
  keeps_orders_fresh_socket keeps_orders_lift_completion keeps_orders_call_provider
  keeps_orders_if : orders_frame.

Ltac frame_step :=
  first
    [ apply keeps_orders_bind; [|intros ?]
    | apply keeps_orders_try_catch; [|intros ?]
    | apply keeps_orders_if
    | apply keeps_orders_update_stores; intros ?; reflexivity
    | solve [auto with orders_frame]
    | match goal with |- keeps_orders _ (match ?x with _ => _ end) => destruct x end ].

Lemma keeps_orders_cleanupAIProvider : keeps_orders P cleanupAIProvider.
Proof. unfold cleanupAIProvider. repeat frame_step. Qed.

Lemma keeps_orders_tryConnectAIProvider : keeps_orders P (tryConnectAIProvider createProvider).
Proof.
  pose proof keeps_orders_cleanupAIProvider.
  unfold tryConnectAIProvider. repeat frame_step; assumption.
Qed.

Lemma linkSessionToCallSid_orders (sid callSid : option string) (st : Stores) :
  orders (linkSessionToCallSid sid callSid st) = orders st.
Proof.
  unfold linkSessionToCallSid. destruct sid, callSid; try reflexivity.
  destruct (_ || _); reflexivity.
Qed.

(** No [start] event touches the order store: the handler clears the
    cart of the stream and re-keys the handlers, and that is all it does
    to the stores. *)
Lemma start_keeps_orders (sid callSid : option string) :
  keeps_orders P (handleTwilioMessage createProvider (Some (StartMsg sid callSid))).
Proof.
  pose proof keeps_orders_tryConnectAIProvider.
  unfold handleTwilioMessage.
  repeat first
    [ assumption
    | apply keeps_orders_update_stores; intros ?; apply linkSessionToCallSid_orders
    | frame_step ].
Qed.

End OrdersFrame.

(** ** The properties at concrete inputs *)

Lemma InterruptOnlyProvider_returns : ProviderReturns InterruptOnlyProvider.
Proof. split; try reflexivity. intros f item ms p Hf. discriminate Hf. Qed.

#[export] Existing Instance InterruptOnlyProvider_returns.


(** How a session gets there: an audio chunk without an item id starts
    the utterance and leaves [lastAssistantItem] unset. *)
Example audio_without_item_id_starts_utterance :
  responseStartTimestamp (session (state_after (handleAIAudio "a" None idle_world))) = Some 0 /\
  lastAssistantItem (session (state_after (handleAIAudio "a" None idle_world))) = None.
Proof. split; reflexivity. Qed.


(** The capability fallback: a provider without [truncate] receives one
    [interrupt()] and nothing else. *)
Example speechStarted_fallback_interrupts_once :
  invocations (effects (onSpeechStarted fallback_world)) = [m_interrupt] /\
  own_io (effects (onSpeechStarted fallback_world)) = [WsSend 1 (clear_frame "S1")].
Proof. split; reflexivity. Qed.



(** C3 as stated fails: for the name [does_not_exist] the dispatcher
    returns no payload, it throws. *)
Lemma unknown_function_call_throws :
  completion (handleFunctionCall sample_functions JSON_parse_ascii unknown_call speaking_world)
  = Throw (Error "No handler found for function: does_not_exist").
Proof. reflexivity. Qed.

(** C3, as the code has it, on the call [does_not_exist]. *)
Lemma unknown_function_throws_and_is_caught_witness :
  handleFunctionCall sample_functions JSON_parse_ascii unknown_call speaking_world =
    (Throw (Error "No handler found for function: does_not_exist"), speaking_world, []) /\
  onFunctionCall sample_functions JSON_parse_ascii unknown_call speaking_world =
    (Return tt, speaking_world, []).
Proof.
  exact (unknown_function_throws_and_is_caught sample_functions JSON_parse_ascii
           unknown_call speaking_world eq_refl).
Defined.

(** C4 as stated fails: arguments that do not parse, sent under a name
    that is not registered, make the dispatcher throw. *)
Lemma malformed_arguments_of_unknown_function_throw :
  JSON_parse_ascii (fc_arguments malformed_unknown_call) = None /\
  completion (handleFunctionCall sample_functions JSON_parse_ascii malformed_unknown_call
                                 speaking_world)
  = Throw (Error "No handler found for function: does_not_exist").
Proof. split; reflexivity. Qed.

(** C4, as the code has it, on [cancel_order]: arguments that do not
    parse, and the arguments [null], on which the handler throws. *)
Lemma dispatch_failures_become_error_payloads_witness :
  handleFunctionCall sample_functions JSON_parse_ascii
                     (mkFunctionCallData "cancel_order" "{not json" "call_3") speaking_world =
    (Return (error_payload "Invalid JSON arguments for function call."), speaking_world, []) /\
  handleFunctionCall sample_functions JSON_parse_ascii
                     (mkFunctionCallData "cancel_order" "null" "call_4") speaking_world =
    (Return (error_payload
               "Error running function cancel_order: Cannot read properties of null (reading 'orderId')"),
     speaking_world, []).
Proof.
  split.
  - exact (proj1 (dispatch_failures_become_error_payloads sample_functions JSON_parse_ascii
                    (mkFunctionCallData "cancel_order" "{not json" "call_3")
                    cancel_order_entry speaking_world eq_refl) eq_refl).
  - exact (proj2 (dispatch_failures_become_error_payloads sample_functions JSON_parse_ascii
                    (mkFunctionCallData "cancel_order" "null" "call_4")
                    cancel_order_entry speaking_world eq_refl)
                 JNull
                 (Error "Cannot read properties of null (reading 'orderId')")
                 fresh_stores eq_refl eq_refl).
Defined.

(** C5: the [start] event of stream [S1], arriving while the stores
    still hold a cart and an order of [S1], clears the cart, re-keys the
    handlers and then connects the provider; the order is still there. *)
Lemma start_event_keeps_old_orders :
  let run := handleTwilioMessage createAIProvider (Some (StartMsg (Some "S1") None))
                                 returning_world in
  orderStorage.getOrdersBySession "S1" (stores returning_world) = [old_order] /\
  completion run = Return tt /\
  cartStorage.getCart "S1" (stores (state_after run)) = None /\
  currentSessionId (stores (state_after run)) = "S1" /\
  orderStorage.getOrdersBySession "S1" (stores (state_after run)) = [old_order] /\
  invocations (effects run) = [m_connect].
Proof. cbv zeta. repeat split. Qed.

(** C6 as stated fails: a [media] frame stamped 100 that follows one
    stamped 500 moves [latestMediaTimestamp] back to 100. *)
Lemma media_timestamp_moves_backward :
  let after_500 :=
    state_after (handleTwilioMessage createAIProvider (Some (MediaMsg 500 "AAAA"))
                                     speaking_world) in
  let after_100 :=
    state_after (handleTwilioMessage createAIProvider (Some (MediaMsg 100 "BBBB"))
                                     after_500) in
  latestMediaTimestamp (session after_500) = Some 500 /\
  latestMediaTimestamp (session after_100) = Some 100.
Proof. cbv zeta. split; reflexivity. Qed.

(** C7 on the call in progress. *)
Lemma twilio_close_idempotent_witness :
  completion (onTwilioClose speaking_world) = Return tt /\
  completion (onTwilioClose (state_after (onTwilioClose speaking_world))) = Return tt /\
  session (state_after (onTwilioClose (state_after (onTwilioClose speaking_world)))) =
    session (state_after (onTwilioClose speaking_world)) /\
  state_after (onTwilioClose (state_after (onTwilioClose speaking_world))) =
    state_after (onTwilioClose speaking_world) /\
  effects (onTwilioClose (state_after (onTwilioClose speaking_world))) = [].
Proof. exact (twilio_close_idempotent speaking_world). Defined.

(** C8 on the call in progress. *)
Lemma provider_failure_clears_only_provider_witness :
  twilioConn (session speaking_world) = Some twilio_socket /\
  session (state_after (onProviderError speaking_world)) =
    set_aiProvider None (session speaking_world) /\
  session (state_after (onProviderClose speaking_world)) =
    set_aiProvider None (session speaking_world).
Proof.
  split; [reflexivity|].
  pose proof (provider_failure_clears_only_provider speaking_world twilio_socket eq_refl)
    as [(_ & He & _) (_ & Hc & _)].
  split; [exact He | exact Hc].
Defined.

(** C9 on a provider that was just created. *)
Lemma sendAudio_when_not_connected_witness :
  OpenAI.isConnected (OpenAI.new sample_config) = false /\
  OpenAI.sendAudio "AAAA" (OpenAI.new sample_config) =
    (Return tt, OpenAI.new sample_config, []).
Proof.
  split; [reflexivity|].
  exact (sendAudio_when_not_connected (OpenAI.new sample_config) "AAAA" eq_refl).
Defined.

(** The factory on the default model, and on a provider name it does not know. *)
Example createAIProvider_default_model :
  createAIProvider sample_config = Return (OpenAI.new sample_config).
Proof. reflexivity. Qed.

Example createAIProvider_unknown_provider :
  createAIProvider
    (mkAIProviderConfig (mkModelConfig "gemini" "live" "Live" "pcm16" "pcm16") "k" "" None)
  = Throw (Error "Unsupported AI provider: gemini").
Proof. reflexivity. Qed.

(** The end-to-end scenario: a media frame at 0, the first audio chunk
    of item [I1], a media frame at 500, then [speechStarted]. The audio
    chunk starts the utterance at 0 and is relayed with a mark; the
    barge-in truncates [I1] at 500 ms, clears the telephony leg and
    returns the session to idle. *)
Example end_to_end_barge_in :
  let w1 := state_after (handleTwilioMessage createAIProvider (Some (MediaMsg 0 "AAAA"))
                                             idle_world) in
  let audio := handleAIAudio "a" (Some "I1") w1 in
  let w2 := state_after audio in
  let w3 := state_after (handleTwilioMessage createAIProvider (Some (MediaMsg 500 "BBBB"))
                                             w2) in
  let barge_in := onSpeechStarted w3 in
  responseStartTimestamp (session w2) = Some 0 /\
  lastAssistantItem (session w2) = Some "I1" /\
  own_io (effects audio) =
    [WsSend 1 (JSON_stringify (JObj [("event", JStr "media"); ("streamSid", JStr "S1");
                                     ("media", JObj [("payload", JStr "a")])]));
     WsSend 1 (JSON_stringify (JObj [("event", JStr "mark"); ("streamSid", JStr "S1")]))] /\
  invocations (effects barge_in) = [m_truncate "I1" 500] /\
  own_io (effects barge_in) = [WsSend 1 (clear_frame "S1")] /\
  responseStartTimestamp (session (state_after barge_in)) = None /\
  lastAssistantItem (session (state_after barge_in)) = None.
Proof. cbv zeta. repeat split. Qed.

(** * Further properties *)

(** ** The cart and order stores *)

Lemma getOrder_orders_set (oid other : string) (o : Order) (st : Stores) :
  orderStorage.getOrder other
    (mkStores (carts st) (orders_set oid o (orders st)) (currentSessionId st)
              (callSidBySessionId st)) =
  if String.eqb oid other then Some o else orderStorage.getOrder other st.
Proof.
  unfold orderStorage.getOrder. cbn [orders].
  induction (orders st) as [|[k v] rest IH]; cbn [orders_set List.find fst].
  - rewrite String.eqb_sym. destruct (String.eqb other oid); reflexivity.
  - destruct (String.eqb_spec k oid) as [->|Hk]; cbn [List.find fst].
    + rewrite String.eqb_sym. destruct (String.eqb_spec other oid) as [->|Hne].
      * reflexivity.
      * reflexivity.
    + destruct (String.eqb_spec k other) as [->|Hko].
      * destruct (String.eqb_spec oid other) as [->|Hne]; [congruence | reflexivity].
      * exact IH.
Qed.

Lemma order_ids_orders_set (oid : string) (o : Order) (l : list (string * Order)) :
  In oid (map fst l) -> map fst (orders_set oid o l) = map fst l.
Proof.
  induction l as [|[k v] rest IH]; cbn [orders_set map fst In]; [tauto|].
  intros [->|Hin].
  - rewrite String.eqb_refl. reflexivity.
  - destruct (String.eqb k oid); cbn [map fst]; [reflexivity | rewrite IH; auto].
Qed.

Lemma find_key_In (oid : string) (l : list (string * Order)) (kv : string * Order) :
  List.find (fun kv => String.eqb (fst kv) oid) l = Some kv -> In oid (map fst l).
Proof.
  intros Hf. apply find_some in Hf as [Hin Heq].
  apply String.eqb_eq in Heq. subst oid. apply in_map. exact Hin.
Qed.

(** [cancelOrder] succeeds exactly on an order that exists and is
    neither delivered nor cancelled; the order it returns is the stored
    one with status [cancelled], and [getOrder] returns it from then on.
    When it fails, the store is left as it was. *)
Theorem cancelOrder_succeeds_iff_cancellable (oid : string) (st : Stores) :
  match cancelOrder oid st with
  | (Some o, st') =>
      exists o0, orderStorage.getOrder oid st = Some o0 /\
                 status o0 <> delivered /\ status o0 <> cancelled /\
                 o = mkOrder (orderId o0) (order_sessionId o0) (order_items o0) cancelled /\
                 orderStorage.getOrder oid st' = Some o
  | (None, st') =>
      st' = st /\
      match orderStorage.getOrder oid st with
      | Some o0 => status o0 = delivered \/ status o0 = cancelled
      | None => True
      end
  end.
Proof.
  unfold cancelOrder.
  destruct (orderStorage.getOrder oid st) as [o0|] eqn:Hget; [|auto].
  destruct (status o0) eqn:Hs; auto;
    (exists o0; repeat split; try congruence;
     rewrite getOrder_orders_set, String.eqb_refl; reflexivity).
Qed.

(** An order is cancelled at most once: whatever the first
    [cancelOrder] did, a second one for the same id reports failure and
    leaves the store as the first one left it. *)
Theorem cancelOrder_twice (oid : string) (st : Stores) :
  cancelOrder oid (snd (cancelOrder oid st)) = (None, snd (cancelOrder oid st)).
Proof.
  unfold cancelOrder at 2 3.
  destruct (orderStorage.getOrder oid st) as [o0|] eqn:Hget; cbn [snd].
  - destruct (status o0) eqn:Hs; cbn [snd];
      try (unfold cancelOrder; rewrite Hget, Hs; reflexivity);
      (unfold cancelOrder; rewrite getOrder_orders_set, String.eqb_refl; reflexivity).
  - unfold cancelOrder. rewrite Hget. reflexivity.
Qed.

(** [cancelOrder] touches one order only: the ids of the store and
    their order stay, every other order reads as before, and so do the
    carts and the active session id. *)
Theorem cancelOrder_frame (oid : string) (st : Stores) :
  let st' := snd (cancelOrder oid st) in
  order_ids st' = order_ids st /\
  (forall other, other <> oid ->
                 orderStorage.getOrder other st' = orderStorage.getOrder other st) /\
  carts st' = carts st /\
  currentSessionId st' = currentSessionId st.
Proof.
  cbv zeta. unfold cancelOrder.
  destruct (orderStorage.getOrder oid st) as [o0|] eqn:Hget; cbn [snd]; [|auto].
  assert (Hin : In oid (map fst (orders st))).
  { unfold orderStorage.getOrder in Hget.
    destruct (List.find _ (orders st)) as [kv|] eqn:Hf; [|discriminate].
    eapply find_key_In; eauto. }
  destruct (status o0); cbn [snd]; auto;
    (repeat split;
     [ unfold order_ids; cbn [orders]; apply order_ids_orders_set; exact Hin
     | intros other Hne; rewrite getOrder_orders_set;
       destruct (String.eqb_spec oid other); [congruence | reflexivity] ]).
Qed.

(** A created order is found again under its id and among the orders of
    its session, and creating it disturbs no order stored under another
    id, nor any cart. *)
Theorem createOrder_round_trip
    (newId sessionId : string) (items : list CartItem) (s0 : OrderStatus) (st : Stores) :
  let order := fst (createOrder newId sessionId items s0 st) in
  let st' := snd (createOrder newId sessionId items s0 st) in
  orderStorage.getOrder newId st' = Some order /\
  In order (orderStorage.getOrdersBySession sessionId st') /\
  (forall other, other <> newId ->
                 orderStorage.getOrder other st' = orderStorage.getOrder other st) /\
  carts st' = carts st.
Proof.
  cbv zeta. unfold createOrder. cbn [fst snd].
  assert (Hget : forall other,
             orderStorage.getOrder other
               (mkStores (carts st)
                         (orders_set newId (mkOrder newId sessionId items s0) (orders st))
                         (currentSessionId st) (callSidBySessionId st)) =
             if String.eqb newId other then Some (mkOrder newId sessionId items s0)
             else orderStorage.getOrder other st)
    by (intros; apply getOrder_orders_set).
  repeat split.
  - rewrite Hget, String.eqb_refl. reflexivity.
  - unfold orderStorage.getOrdersBySession. cbn [orders].
    apply filter_In. split; [|cbn; apply String.eqb_refl].
    specialize (Hget newId). rewrite String.eqb_refl in Hget.
    unfold orderStorage.getOrder in Hget. cbn [orders] in Hget.
    destruct (List.find _ _) as [kv|] eqn:Hf; [|discriminate].
    apply find_some in Hf as [Hin _]. injection Hget as Hkv.
    apply in_map_iff. exists kv. split; [exact Hkv | exact Hin].
  - intros other Hne. rewrite Hget.
    destruct (String.eqb_spec newId other); [congruence | reflexivity].
Qed.

(** The cart store: a created cart is empty and is the one [getCart]
    returns; after [clearCart] the session has no cart; an updated cart
    is the one [getCart] returns; and none of the three touches the cart
    of another session or any order. *)
Theorem cart_store_round_trip (sessionId : string) (cart : Cart) (st : Stores) :
  cartStorage.getCart sessionId (snd (createCart sessionId st)) = Some (mkCart sessionId []) /\
  cartStorage.getCart sessionId (updateCart sessionId cart st) = Some cart /\
  cartStorage.getCart sessionId (cartStorage.clearCart sessionId st) = None /\
  (forall other, other <> sessionId ->
     cartStorage.getCart other (snd (createCart sessionId st)) = cartStorage.getCart other st /\
     cartStorage.getCart other (updateCart sessionId cart st) = cartStorage.getCart other st /\
     cartStorage.getCart other (cartStorage.clearCart sessionId st)
     = cartStorage.getCart other st) /\
  orders (snd (createCart sessionId st)) = orders st /\
  orders (updateCart sessionId cart st) = orders st /\
  orders (cartStorage.clearCart sessionId st) = orders st.
Proof.
  unfold cartStorage.getCart, cartStorage.clearCart, createCart, updateCart, set_carts.
  cbn [snd carts orders].
  repeat split.
  - apply lookup_insert_eq.
  - apply lookup_insert_eq.
  - apply lookup_delete_eq.
  - apply lookup_insert_ne. congruence.
  - apply lookup_insert_ne. congruence.
  - apply lookup_delete_ne. congruence.
Qed.

(** ** The call context *)

(** What the webhook stored for a call is what a session linked to that
    call reads back, in whichever order the two happened; both
    identifiers have to be non-empty. *)
Theorem call_participants_round_trip
    (c : CallContext) (sessionId callSid : string) (from to : option string) :
  sessionId <> EmptyString ->
  callSid <> EmptyString ->
  let stored_then_linked :=
    linkSession (Some sessionId) (Some callSid)
                (setCallParticipantsForCallSid callSid from to c) in
  let linked_then_stored :=
    setCallParticipantsForCallSid callSid from to
                                  (linkSession (Some sessionId) (Some callSid) c) in
  getCallerForSession sessionId stored_then_linked = from /\
  getTwilioNumberForSession sessionId stored_then_linked = to /\
  getCallerForSession sessionId linked_then_stored = from /\
  getTwilioNumberForSession sessionId linked_then_stored = to.
Proof.
  intros Hs Hc. cbv zeta.
  unfold getCallerForSession, getTwilioNumberForSession, linkSession,
    setCallParticipantsForCallSid, linkSessionToCallSid, set_callSidBySessionId.
  rewrite !(truthy_string_Some _ Hs), !(truthy_string_Some _ Hc).
  cbn [negb orb ctx_stores participantsByCallSid callSidBySessionId].
  rewrite !lookup_insert_eq, !(truthy_string_Some _ Hc). cbn [negb p_from p_to].
  auto.
Qed.

(** After [clearSession] the session has no caller and no number. The
    participants go with the call, so another session linked to the same
    call loses them too, while a session linked to another call (or to
    none) reads what it read before. *)
Theorem clearSession_forgets_the_call (sessionId : string) (c : CallContext) :
  getCallerForSession sessionId (clearSession sessionId c) = None /\
  getTwilioNumberForSession sessionId (clearSession sessionId c) = None /\
  (forall other callSid,
      other <> sessionId ->
      callSid <> EmptyString ->
      callSidBySessionId (ctx_stores c) !! sessionId = Some callSid ->
      callSidBySessionId (ctx_stores c) !! other = Some callSid ->
      getCallerForSession other (clearSession sessionId c) = None /\
      getTwilioNumberForSession other (clearSession sessionId c) = None) /\
  (forall other,
      other <> sessionId ->
      callSidBySessionId (ctx_stores c) !! other
      <> callSidBySessionId (ctx_stores c) !! sessionId ->
      getCallerForSession other (clearSession sessionId c) = getCallerForSession other c /\
      getTwilioNumberForSession other (clearSession sessionId c)
      = getTwilioNumberForSession other c).
Proof.
  unfold getCallerForSession, getTwilioNumberForSession, clearSession, set_callSidBySessionId.
  cbn [ctx_stores participantsByCallSid callSidBySessionId].
  repeat split.
  - rewrite lookup_delete_eq. reflexivity.
  - rewrite lookup_delete_eq. reflexivity.
  - rewrite lookup_delete_ne by congruence.
    rewrite H2, H1, (truthy_string_Some _ H0). cbn [negb].
    rewrite lookup_delete_eq. reflexivity.
  - rewrite lookup_delete_ne by congruence.
    rewrite H2, H1, (truthy_string_Some _ H0). cbn [negb].
    rewrite lookup_delete_eq. reflexivity.
  - rewrite lookup_delete_ne by congruence.
    destruct (callSidBySessionId (ctx_stores c) !! other) as [cs|] eqn:Ho; [|reflexivity].
    destruct (negb (truthy_string (Some cs))); [reflexivity|].
    destruct (callSidBySessionId (ctx_stores c) !! sessionId) as [cs'|] eqn:Hs; [|reflexivity].
    destruct (truthy_string (Some cs')); [|reflexivity].
    rewrite lookup_delete_ne by congruence. reflexivity.
  - rewrite lookup_delete_ne by congruence.
    destruct (callSidBySessionId (ctx_stores c) !! other) as [cs|] eqn:Ho; [|reflexivity].
    destruct (negb (truthy_string (Some cs))); [reflexivity|].
    destruct (callSidBySessionId (ctx_stores c) !! sessionId) as [cs'|] eqn:Hs; [|reflexivity].
    destruct (truthy_string (Some cs')); [|reflexivity].
    rewrite lookup_delete_ne by congruence. reflexivity.
Qed.

(** ** Choosing the model and the voice *)

Lemma split_colon_no_colon (s : string) : no_colon s = true -> split_colon s = [s].
Proof.
  induction s as [|c rest IH]; cbn [no_colon split_colon]; [reflexivity|].
  intros Hn. apply andb_prop in Hn as [Hc Hrest].
  apply negb_true_iff in Hc. rewrite Hc, (IH Hrest). reflexivity.
Qed.

Lemma split_colon_app (a rest : string) :
  no_colon a = true -> split_colon (a +:+ String ":"%char rest) = a :: split_colon rest.
Proof.
  induction a as [|c a IH]; simpl.
  - intros _. reflexivity.
  - intros Hn. apply andb_prop in Hn as [Hc Ha].
    apply negb_true_iff in Hc. rewrite Hc, (IH Ha). reflexivity.
Qed.

(** [getModelById] reads the provider and the model off the first two
    colon-separated parts of the id: an id with no colon finds nothing,
    and whatever follows a second colon is ignored. *)
Theorem getModelById_reads_two_parts (prov mdl rest : string) :
  no_colon prov = true ->
  no_colon mdl = true ->
  getModelById prov = None /\
  getModelById (prov +:+ ":" +:+ mdl) = getModelConfig prov mdl /\
  getModelById (prov +:+ ":" +:+ mdl +:+ ":" +:+ rest) = getModelConfig prov mdl.
Proof.
  intros Hp Hm. unfold getModelById.
  rewrite (split_colon_no_colon prov Hp).
  change (prov +:+ ":" +:+ mdl) with (prov +:+ String ":"%char mdl).
  change (prov +:+ ":" +:+ mdl +:+ ":" +:+ rest)
    with (prov +:+ String ":"%char (mdl +:+ String ":"%char rest)).
  rewrite !(split_colon_app prov _ Hp), (split_colon_no_colon mdl Hm),
    (split_colon_app mdl _ Hm).
  destruct (split_colon rest); auto.
Qed.

(** The id of every available model leads back to that model, and
    [getModelById] never yields anything but an available model. *)
Theorem getModelById_round_trip :
  Forall (fun m => getModelById (getModelId m) = Some m) AVAILABLE_MODELS /\
  forall (id : string) (m : ModelConfig), getModelById id = Some m -> In m AVAILABLE_MODELS.
Proof.
  split.
  - repeat constructor.
  - intros id m. unfold getModelById, getModelConfig.
    destruct (split_colon id) as [|prov [|mdl parts]]; try discriminate.
    intros Hf. apply find_some in Hf as [Hin _]. exact Hin.
Qed.

Lemma apply_config_op_valid (c : AIConfig) (op : ConfigOp) :
  In (getCurrentModel c) AVAILABLE_MODELS ->
  In (getCurrentVoice c) AVAILABLE_VOICES ->
  In (getCurrentModel (apply_config_op c op)) AVAILABLE_MODELS /\
  In (getCurrentVoice (apply_config_op c op)) AVAILABLE_VOICES /\
  getCurrentSystemPrompt (apply_config_op c op) = getCurrentSystemPrompt c.
Proof.
  intros Hm Hv. destruct op as [id|v]; cbn [apply_config_op].
  - unfold setCurrentModel, getModelById, getModelConfig.
    destruct (split_colon id) as [|prov [|mdl parts]]; cbn [snd]; auto.
    destruct (List.find _ AVAILABLE_MODELS) as [m|] eqn:Hf; cbn [snd getCurrentModel]; auto.
    apply find_some in Hf as [Hin _]. auto.
  - unfold setCurrentVoice.
    destruct (existsb (String.eqb v) AVAILABLE_VOICES) eqn:He; cbn [snd getCurrentVoice]; auto.
    apply existsb_exists in He as (x & Hin & Heq).
    apply String.eqb_eq in Heq. subst x. auto.
Qed.


(** ** The OpenAI provider *)

(** [close()] is idempotent: it returns normally, calls [close] on the
    socket if there is one (whatever state that socket is in) and leaves
    the provider disconnected with no socket; a second [close()] does
    nothing at all. *)
Theorem OpenAI_close_idempotent (p : OpenAIProvider) :
  let once := OpenAI.close p in
  let twice := OpenAI.close (state_after once) in
  completion once = Return tt /\
  effects once = match ws p with Some sock => [WsClose (ws_id sock)] | None => [] end /\
  state_after once = mkOpenAIProvider (config p) false None /\
  twice = (Return tt, state_after once, []).
Proof.
  cbv zeta. unfold OpenAI.close, bind, get, modify, ws_close, emit, ret,
    completion, effects, state_after.
  destruct p as [cfg conn [sock|]]; cbn; auto.
Qed.

Lemma OpenAI_sendMessage_effects (msg : JsValue) (p : OpenAIProvider) :
  OpenAI.sendMessage msg p =
    (Return tt, p,
     match ws p with
     | Some sock =>
         if connected p && readyState_eqb (readyState sock) OPEN
         then [WsSend (ws_id sock) (JSON_stringify msg)]
         else []
     | None => []
     end).
Proof.
  unfold OpenAI.sendMessage, bind, get, try_catch, ws_send, emit, ret, throw.
  destruct p as [cfg conn [[id st]|]]; cbn; [|reflexivity].
  destruct conn; cbn; [|reflexivity].
  destruct st; reflexivity.
Qed.

Lemma Forall_sendMessage (msg : JsValue) (p : OpenAIProvider) :
  Forall (sent_on_own_open_socket p) (effects (OpenAI.sendMessage msg p)).
Proof.
  rewrite OpenAI_sendMessage_effects. unfold effects. cbn [snd].
  destruct (ws p) as [sock|] eqn:Hw; [|constructor].
  destruct (connected p) eqn:Hc; cbn [andb]; [|constructor].
  destruct (readyState sock) eqn:Hr; cbn [readyState_eqb]; try apply Forall_nil_2.
  apply Forall_cons_2; [|apply Forall_nil_2].
  cbn [sent_on_own_open_socket]. split; [exact Hc|]. exists sock. auto.
Qed.

(** While the provider is not connected, [truncate] and
    [sendFunctionResponse] are no-ops as well: they return normally, put
    nothing on the socket and leave the provider as it was. *)
Theorem OpenAI_not_connected_sends_nothing
    (p : OpenAIProvider) (itemId name call_id response : string) (ms : Z) :
  OpenAI.isConnected p = false ->
  OpenAI.truncate itemId ms p = (Return tt, p, []) /\
  OpenAI.sendFunctionResponse name call_id response p = (Return tt, p, []).
Proof.
  unfold OpenAI.isConnected, OpenAI.truncate, OpenAI.sendFunctionResponse, bind, get.
  intros ->. split; reflexivity.
Qed.

(** No sending method changes the provider, throws, or touches a socket
    other than the provider's own: whatever [sendAudio],
    [sendFunctionResponse], [truncate] and [interrupt] put on the wire
    goes out on the provider's socket, and only when the provider is
    connected and that socket is open. *)
Theorem OpenAI_sends_only_on_own_open_socket
    (p : OpenAIProvider) (audioData itemId name call_id response : string) (ms : Z) :
  let runs := [OpenAI.sendAudio audioData p;
               OpenAI.sendFunctionResponse name call_id response p;
               OpenAI.truncate itemId ms p;
               OpenAI.interrupt p] in
  Forall (fun run =>
            completion run = Return tt /\
            state_after run = p /\
            Forall (sent_on_own_open_socket p) (effects run)) runs.
Proof.
  cbv zeta.
  assert (Hmsg : forall msg,
             completion (OpenAI.sendMessage msg p) = Return tt /\
             state_after (OpenAI.sendMessage msg p) = p /\
             Forall (sent_on_own_open_socket p) (effects (OpenAI.sendMessage msg p))).
  { intros msg. split; [|split]; [| |apply Forall_sendMessage];
      rewrite OpenAI_sendMessage_effects; reflexivity. }
  repeat constructor.
  - unfold OpenAI.sendAudio, bind, get. cbn match.
    destruct (negb (connected p) || negb (truthy_object (ws p))); [reflexivity|].
    rewrite OpenAI_sendMessage_effects. reflexivity.
  - unfold OpenAI.sendAudio, bind, get. cbn match.
    destruct (negb (connected p) || negb (truthy_object (ws p))); [reflexivity|].
    rewrite OpenAI_sendMessage_effects. reflexivity.
  - unfold OpenAI.sendAudio, bind, get. cbn match.
    destruct (negb (connected p) || negb (truthy_object (ws p))); [constructor|].
    destruct (OpenAI.sendMessage _ p) as [[r q] es] eqn:Hrun.
    pose proof (Forall_sendMessage
                  (JObj [("type", JStr "input_audio_buffer.append");
                         ("audio", JStr audioData)]) p) as HF.
    rewrite Hrun in HF. unfold effects in *. cbn [snd app] in *. exact HF.
  - unfold OpenAI.sendFunctionResponse, bind, get. cbn match.
    destruct (negb (connected p) || negb (truthy_object (ws p))); [reflexivity|].
    rewrite !OpenAI_sendMessage_effects. reflexivity.
  - unfold OpenAI.sendFunctionResponse, bind, get. cbn match.
    destruct (negb (connected p) || negb (truthy_object (ws p))); [reflexivity|].
    rewrite !OpenAI_sendMessage_effects. reflexivity.
  - unfold OpenAI.sendFunctionResponse, bind, get. cbn match.
    destruct (negb (connected p) || negb (truthy_object (ws p))); [constructor|].
    match goal with |- context [OpenAI.sendMessage ?m1 p] =>
      pose proof (Forall_sendMessage m1 p) as HF1;
      destruct (OpenAI.sendMessage m1 p) as [[r1 q1] es1] eqn:Hrun1 end.
    rewrite OpenAI_sendMessage_effects in Hrun1. injection Hrun1 as <- <- Hes1.
    match goal with |- context [OpenAI.sendMessage ?m2 p] =>
      pose proof (Forall_sendMessage m2 p) as HF2;
      destruct (OpenAI.sendMessage m2 p) as [[r2 q2] es2] eqn:Hrun2 end.
    unfold effects in *. cbn [snd app] in *.
    apply Forall_app. split; [exact HF1 | exact HF2].
  - unfold OpenAI.truncate, bind, get. cbn match.
    destruct (negb (connected p) || negb (truthy_object (ws p))); [reflexivity|].
    rewrite OpenAI_sendMessage_effects. reflexivity.
  - unfold OpenAI.truncate, bind, get. cbn match.
    destruct (negb (connected p) || negb (truthy_object (ws p))); [reflexivity|].
    rewrite OpenAI_sendMessage_effects. reflexivity.
  - unfold OpenAI.truncate, bind, get. cbn match.
    destruct (negb (connected p) || negb (truthy_object (ws p))); [constructor|].
    match goal with |- context [OpenAI.sendMessage ?m1 p] =>
      pose proof (Forall_sendMessage m1 p) as HF1;
      destruct (OpenAI.sendMessage m1 p) as [[r1 q1] es1] end.
    unfold effects in *. cbn [snd app] in *. exact HF1.
Qed.

(** ** Messages from the backend *)

Ltac no_functionCall :=
  cbn; intros ->; unfold completion, state_after, effects; cbn [fst snd];
  split; [reflexivity|];
  split; [reflexivity|];
  split; [cbn; auto|];
  split; [auto|];
  let Hin := fresh "Hin" in
  intros ? ? ? Hin; cbn in Hin; intuition discriminate.

Lemma is_JStr_true (expected : string) (v : option JsValue) :
  is_JStr expected v = true -> v = Some (JStr expected).
Proof.
  destruct v as [[| | |s| |]|]; cbn; try discriminate.
  intros Heq. apply String.eqb_eq in Heq. congruence.
Qed.

(** [handleMessage] cannot fail: on every data it returns normally,
    leaves the provider as it was and emits at most one event. Data that
    is not JSON, and the JSON value [null], emit nothing. A
    [functionCall] is emitted only for a [response.output_item.done]
    whose [item] has type [function_call], and carries that item's
    [name], [arguments] and [call_id]. *)
Theorem handleMessage_never_fails
    (JSON_parse : string -> option JsValue) (data : string) (p : OpenAIProvider) :
  let run := handleMessage JSON_parse data p in
  completion run = Return tt /\
  state_after run = p /\
  (List.length (effects run) <= 1)%nat /\
  (match JSON_parse data with
   | None | Some JNull => effects run = []
   | Some _ => True
   end) /\
  (forall name arguments call_id,
      In (ev_functionCall name arguments call_id) (effects run) ->
      exists event item,
        JSON_parse data = Some event /\
        js_get "type" event = Some (JStr "response.output_item.done") /\
        js_get "item" event = Some item /\
        js_get "type" item = Some (JStr "function_call") /\
        name = js_get "name" item /\
        arguments = js_get "arguments" item /\
        call_id = js_get "call_id" item).
Proof.
  cbv zeta. remember (handleMessage JSON_parse data p) as run eqn:Hrun.
  revert Hrun. unfold handleMessage, try_catch.
  destruct (JSON_parse data) as [event|] eqn:Hparse; [|no_functionCall].
  unfold bind at 1.
  destruct event as [| b | n | s | xs | fields] eqn:He; try no_functionCall.
  unfold js_prop at 1, ret at 1. cbv beta iota.
  destruct (is_JStr "response.audio.delta" (js_get "type" (JObj fields))) eqn:H1;
    [no_functionCall|].
  destruct (is_JStr "response.output_item.done" (js_get "type" (JObj fields))) eqn:H2.
  2:{ destruct (is_JStr "input_audio_buffer.speech_started" (js_get "type" (JObj fields)));
        no_functionCall. }
  apply is_JStr_true in H2.
  destruct (js_get "item" (JObj fields)) as [item|] eqn:Hitem; [|no_functionCall].
  unfold bind, js_prop.
  destruct item as [| b | n | s | xs | ifields] eqn:Hi; try no_functionCall.
  unfold ret at 1. cbv beta iota.
  destruct (is_JStr "function_call" (js_get "type" (JObj ifields))) eqn:H3;
    [|no_functionCall].
  apply is_JStr_true in H3.
  cbn. intros ->. unfold completion, state_after, effects. cbn [fst snd].
  split; [reflexivity|]. split; [reflexivity|]. split; [auto|]. split; [exact I|].
  intros name arguments call_id [Hin|[]]. injection Hin as <- <- <-.
  exists (JObj fields), (JObj ifields). auto 10.
Qed.

(** ** Stepping through a handler *)

Section Stepping.

Context {E S : Type}.

Lemma wpx_run {A : Type} (m : M E S A) (G : Completion A * S * list E -> Prop) (s : S) :
  wpx m (fun a s' es => G (Return a, s', es)) (fun e s' es => G (Throw e, s', es)) s ->
  G (m s).
Proof. unfold wpx. destruct (m s) as [[[a|e] s'] es]; auto. Qed.

Lemma wpx_ret {A : Type} (a : A) Q R (s : S) : Q a s [] -> wpx (E:=E) (ret a) Q R s.
Proof. auto. Qed.

Lemma wpx_throw {A : Type} (e : JsError) Q R (s : S) :
  R e s [] -> wpx (E:=E) (A:=A) (throw e) Q R s.
Proof. auto. Qed.

Lemma wpx_get Q R (s : S) : Q s s [] -> wpx (E:=E) get Q R s.
Proof. auto. Qed.

Lemma wpx_modify (f : S -> S) Q R (s : S) : Q tt (f s) [] -> wpx (E:=E) (modify f) Q R s.
Proof. auto. Qed.

Lemma wpx_emit (e : E) Q R (s : S) : Q tt s [e] -> wpx (emit e) Q R s.
Proof. auto. Qed.

Lemma wpx_bind {A B : Type} (m : M E S A) (k : A -> M E S B) Q R (s : S) :
  wpx m (fun a s1 es1 =>
           wpx (k a) (fun b s2 es2 => Q b s2 (es1 ++ es2))
                     (fun e s2 es2 => R e s2 (es1 ++ es2)) s1)
        R s ->
  wpx (bind m k) Q R s.
Proof.
  unfold wpx, bind. destruct (m s) as [[[a|e] s1] es1]; [|auto].
  destruct (k a s1) as [[[b|e] s2] es2]; auto.
Qed.

Lemma wpx_try_catch {A : Type} (m : M E S A) (h : JsError -> M E S A) Q R (s : S) :
  wpx m Q (fun e s1 es1 =>
             wpx (h e) (fun a s2 es2 => Q a s2 (es1 ++ es2))
                       (fun e' s2 es2 => R e' s2 (es1 ++ es2)) s1) s ->
  wpx (try_catch m h) Q R s.
Proof.
  unfold wpx, try_catch. destruct (m s) as [[[a|e] s1] es1]; [auto|].
  destruct (h e s1) as [[[b|e'] s2] es2]; auto.
Qed.

Lemma wpx_mono {A : Type} (m : M E S A) (Q Q' : A -> S -> list E -> Prop)
    (R R' : JsError -> S -> list E -> Prop) (s : S) :
  (forall a s' es, Q a s' es -> Q' a s' es) ->
  (forall e s' es, R e s' es -> R' e s' es) ->
  wpx m Q R s -> wpx m Q' R' s.
Proof. unfold wpx. destruct (m s) as [[[a|e] s'] es]; auto. Qed.

End Stepping.

Section SteppingHandlers.

Context {P : Type} `{AIProvider P}.

Lemma wpx_update_session (f : Session P -> Session P) Q R (w : World P) :
  Q tt (mkWorld (f (session w)) (stores w) (aiConfig w) (next_socket w)) [] ->
  wpx (update_session f) Q R w.
Proof. auto. Qed.

Lemma wpx_update_stores (f : Stores -> Stores) Q R (w : World P) :
  Q tt (mkWorld (session w) (f (stores w)) (aiConfig w) (next_socket w)) [] ->
  wpx (update_stores f) Q R w.
Proof. auto. Qed.

Lemma wpx_fresh_socket Q R (w : World P) :
  Q (next_socket w) (mkWorld (session w) (stores w) (aiConfig w) (S (next_socket w))) [] ->
  wpx fresh_socket Q R w.
Proof. auto. Qed.

Lemma wpx_lift_completion {A : Type} (c : Completion A) Q R (w : World P) :
  match c with Return a => Q a w [] | Throw e => R e w [] end ->
  wpx (lift_completion c) Q R w.
Proof. unfold wpx, lift_completion. destruct c; auto. Qed.

Lemma wpx_run_handler (h : Stores -> Completion string * Stores) Q R (w : World P) :
  match h (stores w) with
  | (Return r, st) => Q r (mkWorld (session w) st (aiConfig w) (next_socket w)) []
  | (Throw e, st) => R e (mkWorld (session w) st (aiConfig w) (next_socket w)) []
  end ->
  wpx (run_handler h) Q R w.
Proof. unfold wpx, run_handler. destruct (h (stores w)) as [[r|e] st]; auto. Qed.

Lemma wpx_cleanupConnection (sock : option WebSocket) Q R (w : World P) :
  Q tt w (match sock with
          | Some c => if isOpen sock then [Io (WsClose (ws_id c))] else []
          | None => []
          end) ->
  wpx (cleanupConnection sock) Q R w.
Proof. unfold wpx. rewrite cleanupConnection_run. auto. Qed.

Lemma wpx_jsonSend (sock : option WebSocket) (obj : JsValue) Q R (w : World P) :
  Q tt w (match sock with
          | Some c => if isOpen sock then [Io (WsSend (ws_id c) (JSON_stringify obj))] else []
          | None => []
          end) ->
  wpx (jsonSend sock obj) Q R w.
Proof. unfold wpx. rewrite jsonSend_run. auto. Qed.

Lemma wpx_ws_close (sock : WebSocket) Q R (w : World P) :
  Q tt w [Io (WsClose (ws_id sock))] -> wpx (io (ws_close sock)) Q R w.
Proof. auto. Qed.

(** A method call, whatever way the method completes. *)
Lemma wpx_call_provider {A : Type} (m : Method) (body : M WsEffect P A) (p : P) Q R
    (w : World P) :
  (forall (c : Completion A) (p' : P) (es : list WsEffect),
      body p = (c, p', es) ->
      match c with
      | Return a =>
          Q a (mkWorld (set_aiProvider (Some p') (session w)) (stores w) (aiConfig w)
                       (next_socket w))
            (Invoke m :: map ProviderIo es)
      | Throw e =>
          R e (mkWorld (set_aiProvider (Some p') (session w)) (stores w) (aiConfig w)
                       (next_socket w))
            (Invoke m :: map ProviderIo es)
      end) ->
  wpx (call_provider m body p) Q R w.
Proof.
  intros Hb. unfold wpx, call_provider.
  destruct (body p) as [[c p'] es] eqn:Hrun. specialize (Hb c p' es eq_refl).
  destruct c; exact Hb.
Qed.

(** A method call that returns normally. *)
Lemma wpx_call_provider_returns (m : Method) (body : M WsEffect P unit) (p : P) Q R
    (w : World P) :
  completion (body p) = Return tt ->
  Q tt (mkWorld (set_aiProvider (Some (state_after (body p))) (session w)) (stores w)
                (aiConfig w) (next_socket w))
       (Invoke m :: map ProviderIo (effects (body p))) ->
  wpx (call_provider m body p) Q R w.
Proof.
  intros Hc HQ. unfold wpx. rewrite (call_provider_run m body p w Hc). exact HQ.
Qed.

End SteppingHandlers.

(** Normal form of the session's projections and setters. *)
Ltac norm :=
  cbv beta zeta;
  cbn [session stores aiConfig next_socket twilioConn frontendConn aiProvider streamSid
       saved_config lastAssistantItem responseStartTimestamp latestMediaTimestamp apiKeys
       set_twilioConn set_frontendConn set_aiProvider set_streamSid set_saved_config
       set_lastAssistantItem set_responseStartTimestamp set_latestMediaTimestamp set_apiKeys
       empty_session negb orb andb truthy_object is_defined isOpen app fst snd] in *.

(** One step through the structure of a handler. *)
Ltac wp_step :=
  lazymatch goal with
  | |- wpx (bind _ _) _ _ _ => apply wpx_bind
  | |- wpx (try_catch _ _) _ _ _ => apply wpx_try_catch
  | |- wpx (ret _) _ _ _ => apply wpx_ret
  | |- wpx (throw _) _ _ _ => apply wpx_throw
  | |- wpx get _ _ _ => apply wpx_get
  | |- wpx (modify _) _ _ _ => apply wpx_modify
  | |- wpx (emit _) _ _ _ => apply wpx_emit
  | |- wpx (update_session _) _ _ _ => apply wpx_update_session
  | |- wpx (update_stores _) _ _ _ => apply wpx_update_stores
  | |- wpx fresh_socket _ _ _ => apply wpx_fresh_socket
  | |- wpx (lift_completion _) _ _ _ => apply wpx_lift_completion
  | |- wpx (run_handler _) _ _ _ => apply wpx_run_handler
  | |- wpx (cleanupConnection _) _ _ _ => apply wpx_cleanupConnection
  | |- wpx (jsonSend _ _) _ _ _ => apply wpx_jsonSend
  | |- wpx (io (ws_close _)) _ _ _ => apply wpx_ws_close
  | |- wpx (if ?b then _ else _) _ _ _ => destruct b eqn:?
  | |- wpx (match ?x with _ => _ end) _ _ _ => destruct x eqn:?
  | |- match ?x with _ => _ end => destruct x eqn:?
  end;
  norm.

(** A call of a method of a provider whose methods return normally. *)
Ltac wp_call :=
  apply wpx_call_provider_returns;
  [ first [ apply close_returns | apply connect_returns | apply sendAudio_returns
          | apply sendFunctionResponse_returns | apply interrupt_returns
          | eapply truncate_returns; eassumption ]
  | ];
  norm.

Ltac wp_go := repeat first [ wp_step | wp_call ].

(** What boolean guards say, as equations on their parts. *)
Ltac bool_facts :=
  repeat match goal with
         | Hb : _ || _ = false |- _ => apply orb_false_elim in Hb as [? ?]
         | Hb : _ && _ = true |- _ => apply andb_prop in Hb as [? ?]
         | Hb : negb _ = false |- _ => apply negb_false_iff in Hb
         | Hb : negb _ = true |- _ => apply negb_true_iff in Hb
         end.

Ltac destruct_world w :=
  let tw := fresh "tw" in let fr := fresh "fr" in let pr := fresh "pr" in
  let sid := fresh "sid" in let sc := fresh "sc" in let item := fresh "item" in
  let st := fresh "start" in let lat := fresh "latest" in let keys := fresh "keys" in
  destruct w as [[tw fr pr sid sc item st lat keys] ? ? ?].

Ltac unfold_handlers :=
  unfold dispatch, handleCallConnection, handleTwilioMessage, onTwilioClose,
    handleFrontendConnection, handleFrontendMessage, onFrontendClose, handleAIAudio,
    onFunctionCall, handleFunctionCall, onSpeechStarted, handleTruncation,
    onProviderError, onProviderClose, closeAllConnections, tryConnectAIProvider,
    cleanupAIProvider.

(** ** Every handler, on every state *)

Section EveryHandler.

Context {P : Type} `{AIProvider P} `{!ProviderReturns P}.
Variable createProvider : AIProviderConfig -> Completion P.
Variable functions : list FunctionHandler.
Variable JSON_parse : string -> option JsValue.

Lemma dispatch_keeps_timing_consistent (ev : BridgeEvent) (w : World P) :
  timing_consistent (session w) ->
  wpx (dispatch createProvider functions JSON_parse ev)
      (fun _ w' _ => timing_consistent (session w'))
      (fun _ _ _ => False) w.
Proof.
  intros Hinv. destruct_world w. unfold timing_consistent in *.
  destruct ev as [sock k|[[s c|t pl| |]|]| |sock|data| |a i|d| | |];
    unfold_handlers; norm.
  all: wp_go.
  all: bool_facts; intuition (try discriminate; try congruence; auto).
Qed.

(** Once a telephony envelope has been read, no branch of any handler
    throws, provided the provider's own methods return normally. *)
Lemma dispatch_returns (ev : BridgeEvent) (w : World P) :
  completion (dispatch createProvider functions JSON_parse ev w) = Return tt.
Proof.
  pattern (dispatch createProvider functions JSON_parse ev w). apply wpx_run.
  apply wpx_mono with (Q := fun _ _ _ => True) (R := fun _ _ _ => False).
  - intros [] ? ? _. reflexivity.
  - intros ? ? ? [].
  - destruct_world w.
    destruct ev as [sock k|[[s c|t pl| |]|]| |sock|data| |a i|d| | |];
      unfold_handlers; norm.
    all: wp_go.
    all: exact I.
Qed.

(** In every state the bridge can reach from an empty session, by any
    sequence of events, the timing fields agree: [lastAssistantItem] is
    set only if [responseStartTimestamp] is, and that one only if a
    telephony socket is attached and [streamSid] is non-empty. *)
Theorem timing_fields_agree_in_reachable_states
    (evs : list BridgeEvent) (st : Stores) (c : AIConfig) (fresh : nat) :
  timing_consistent
    (session (run_events createProvider functions JSON_parse evs
                         (mkWorld empty_session st c fresh))).
Proof.
  assert (Hstep : forall evs (w : World P),
             timing_consistent (session w) ->
             timing_consistent
               (session (run_events createProvider functions JSON_parse evs w))).
  { clear evs. induction evs as [|ev evs IH]; intros w Hinv; cbn [run_events]; [exact Hinv|].
    apply IH.
    pattern (dispatch createProvider functions JSON_parse ev w). apply wpx_run.
    apply wpx_mono with (Q := fun _ w' _ => timing_consistent (session w'))
                        (R := fun _ _ _ => False).
    - intros ? ? ? Hq. exact Hq.
    - intros ? ? ? [].
    - apply dispatch_keeps_timing_consistent. exact Hinv. }
  apply Hstep. unfold timing_consistent. cbn. split; discriminate.
Qed.

End EveryHandler.

(** ** Reading effects *)

Lemma own_io_cons_Io (x : WsEffect) (es : list Effect) : own_io (Io x :: es) = x :: own_io es.
Proof. reflexivity. Qed.

Lemma own_io_cons_Invoke (m : Method) (es : list Effect) : own_io (Invoke m :: es) = own_io es.
Proof. reflexivity. Qed.

Lemma own_io_cons_ProviderIo (x : WsEffect) (es : list Effect) :
  own_io (ProviderIo x :: es) = own_io es.
Proof. reflexivity. Qed.

Lemma invocations_cons_Io (x : WsEffect) (es : list Effect) :
  invocations (Io x :: es) = invocations es.
Proof. reflexivity. Qed.

Lemma invocations_cons_Invoke (m : Method) (es : list Effect) :
  invocations (Invoke m :: es) = m :: invocations es.
Proof. reflexivity. Qed.

Lemma invocations_cons_ProviderIo (x : WsEffect) (es : list Effect) :
  invocations (ProviderIo x :: es) = invocations es.
Proof. reflexivity. Qed.

Lemma provider_io_cons_Io (x : WsEffect) (es : list Effect) :
  provider_io (Io x :: es) = provider_io es.
Proof. reflexivity. Qed.

Lemma provider_io_cons_Invoke (m : Method) (es : list Effect) :
  provider_io (Invoke m :: es) = provider_io es.
Proof. reflexivity. Qed.

Lemma provider_io_cons_ProviderIo (x : WsEffect) (es : list Effect) :
  provider_io (ProviderIo x :: es) = x :: provider_io es.
Proof. reflexivity. Qed.

Lemma provider_io_app (a b : list Effect) :
  provider_io (a ++ b) = provider_io a ++ provider_io b.
Proof. unfold provider_io. apply flat_map_app. Qed.

Lemma provider_io_ProviderIo (es : list WsEffect) : provider_io (map ProviderIo es) = es.
Proof. induction es as [|e es IH]; [reflexivity|]. cbn. f_equal. exact IH. Qed.

Lemma own_io_nil : own_io [] = [].
Proof. reflexivity. Qed.

Lemma invocations_nil : invocations [] = [].
Proof. reflexivity. Qed.

Lemma provider_io_nil : provider_io [] = [].
Proof. reflexivity. Qed.

Create Rewrite HintDb effects_db.
#[global] Hint Rewrite own_io_app own_io_ProviderIo own_io_cons_Io own_io_cons_Invoke
  own_io_cons_ProviderIo own_io_nil invocations_app invocations_ProviderIo invocations_cons_Io
  invocations_cons_Invoke invocations_cons_ProviderIo invocations_nil provider_io_app
  provider_io_ProviderIo provider_io_cons_Io provider_io_cons_Invoke
  provider_io_cons_ProviderIo provider_io_nil app_nil_r : effects_db.

Ltac read_effects := autorewrite with effects_db; cbn [app].

(** What is to be shown of a run, shown by stepping through it. *)
Ltac by_stepping run := pattern run; apply wpx_run.

Ltac finish_run :=
  unfold completion, state_after, effects; cbn [fst snd]; norm; read_effects.

(** Case analysis on the option variables a goal still inspects. *)
Ltac destruct_vars :=
  repeat match goal with
         | |- context [match ?x with _ => _ end] => is_var x; destruct x
         | |- context [truthy_object ?x] => is_var x; destruct x
         | |- context [truthy_string ?x] => is_var x; destruct x
         end.

Ltac settle :=
  finish_run; bool_facts; destruct_vars; norm;
  try discriminate; try congruence; auto 10.

(** ** The telephony leg, further *)

Lemma linkSessionToCallSid_carts (sid callSid : option string) (st : Stores) :
  carts (linkSessionToCallSid sid callSid st) = carts st.
Proof.
  unfold linkSessionToCallSid. destruct sid, callSid; try reflexivity.
  destruct (_ || _); reflexivity.
Qed.

Section TelephonyFurther.

Context {P : Type} `{AIProvider P}.
Variable createProvider : AIProviderConfig -> Completion P.

(** The telephony [close] message tears down all three legs: it calls
    [close] on the telephony socket and on the observer socket (whatever
    state they are in) and [close()] on the provider, and clears every
    field of the session but one. [apiKeys] survives when an observer was
    attached, so the session is then not the empty one although no leg
    is left. *)
Theorem close_message_tears_down_all_legs `{!ProviderReturns P} (w : World P) :
  let run := handleTwilioMessage createProvider (Some CloseMsg) w in
  completion run = Return tt /\
  session (state_after run) =
    set_apiKeys (if truthy_object (frontendConn (session w)) then apiKeys (session w)
                 else None) empty_session /\
  stores (state_after run) = stores w /\
  own_io (effects run) =
    match twilioConn (session w) with Some s => [WsClose (ws_id s)] | None => [] end ++
    match frontendConn (session w) with Some s => [WsClose (ws_id s)] | None => [] end /\
  invocations (effects run) =
    match aiProvider (session w) with Some _ => [m_close] | None => [] end.
Proof.
  cbv zeta. by_stepping (handleTwilioMessage createProvider (Some CloseMsg) w).
  destruct_world w. unfold_handlers; norm.
  wp_go.
  all: settle.
Qed.

(** While a call is up (telephony socket attached, [streamSid]
    non-empty), an audio chunk from the provider is relayed as a [media]
    frame followed by a [mark] frame, if the socket is open, and nothing
    is invoked on the provider. The first chunk of an utterance records
    its start, [latestMediaTimestamp] or 0; later chunks leave that start
    alone. The item id is replaced only by a non-empty one. *)
Theorem audio_chunk_is_relayed
    (w : World P) (sock : WebSocket) (sid audioData : string) (itemId : option string) :
  twilioConn (session w) = Some sock ->
  streamSid (session w) = Some sid ->
  sid <> EmptyString ->
  let run := handleAIAudio audioData itemId w in
  completion run = Return tt /\
  own_io (effects run) =
    (if isOpen (Some sock)
     then [WsSend (ws_id sock)
             (JSON_stringify (JObj [("event", JStr "media"); ("streamSid", JStr sid);
                                    ("media", JObj [("payload", JStr audioData)])]));
           WsSend (ws_id sock)
             (JSON_stringify (JObj [("event", JStr "mark"); ("streamSid", JStr sid)]))]
     else []) /\
  invocations (effects run) = [] /\
  responseStartTimestamp (session (state_after run)) =
    Some (match responseStartTimestamp (session w) with
          | Some r => r
          | None => or_zero (latestMediaTimestamp (session w))
          end) /\
  lastAssistantItem (session (state_after run)) =
    (if truthy_string itemId then itemId else lastAssistantItem (session w)) /\
  stores (state_after run) = stores w.
Proof.
  intros Hsock Hsid Hne. cbv zeta. by_stepping (handleAIAudio audioData itemId w).
  destruct_world w. cbn in Hsock, Hsid. subst.
  pose proof (truthy_string_Some sid Hne) as Hts.
  unfold_handlers; norm.
  wp_go.
  all: finish_run; bool_facts; try congruence.
  all: try match goal with Hi : Some _ = Some _ |- _ => injection Hi as <- end.
  all: destruct (readyState_eqb (readyState sock) OPEN); auto 10.
Qed.

(** Without a call (no telephony socket, or no [streamSid]) an audio
    chunk is dropped: nothing is sent and nothing is recorded. *)
Theorem audio_chunk_without_call_is_dropped
    (w : World P) (audioData : string) (itemId : option string) :
  truthy_object (twilioConn (session w)) && truthy_string (streamSid (session w)) = false ->
  handleAIAudio audioData itemId w = (Return tt, w, []).
Proof.
  intros Hguard. by_stepping (handleAIAudio audioData itemId w).
  destruct_world w. cbn in Hguard.
  unfold_handlers; norm.
  wp_go.
  all: bool_facts; try reflexivity.
  all: destruct tw; cbn in *; congruence.
Qed.

(** Once an utterance has started, its start time stays: no sequence of
    audio chunks and media frames, however long, changes
    [responseStartTimestamp]. *)
Theorem utterance_start_is_recorded_once
    (functions : list FunctionHandler) (JSON_parse : string -> option JsValue)
    (evs : list BridgeEvent) (w : World P) (r : Z) :
  Forall audio_or_media evs ->
  responseStartTimestamp (session w) = Some r ->
  responseStartTimestamp
    (session (run_events createProvider functions JSON_parse evs w)) = Some r.
Proof.
  intros Hevs. revert w. induction Hevs as [|ev evs Hev _ IH]; intros w Hr; [exact Hr|].
  cbn [run_events]. apply IH.
  pattern (dispatch createProvider functions JSON_parse ev w). apply wpx_run.
  destruct_world w. cbn in Hr. subst.
  destruct ev as [sock k|[[s c|t pl| |]|]| |sock|data| |a i|d| | |]; try contradiction;
    unfold_handlers; norm.
  - repeat first [ wp_step | apply wpx_call_provider; intros [? | ?] ? ? ? ].
    all: reflexivity.
  - wp_go. all: reflexivity.
Qed.

(** A [start] event with a non-empty stream id begins a fresh call:
    the session takes the id, [latestMediaTimestamp] restarts at 0 and
    no utterance is in flight; the cart of that id is gone and the
    handlers work on that id from now on; the two sockets stay attached,
    and neither the cart of any other session nor any order is touched. *)
Theorem start_begins_a_fresh_call `{!ProviderReturns P}
    (w : World P) (sid : string) (callSid : option string) :
  sid <> EmptyString ->
  let run := handleTwilioMessage createProvider (Some (StartMsg (Some sid) callSid)) w in
  completion run = Return tt /\
  streamSid (session (state_after run)) = Some sid /\
  latestMediaTimestamp (session (state_after run)) = Some 0 /\
  lastAssistantItem (session (state_after run)) = None /\
  responseStartTimestamp (session (state_after run)) = None /\
  twilioConn (session (state_after run)) = twilioConn (session w) /\
  frontendConn (session (state_after run)) = frontendConn (session w) /\
  cartStorage.getCart sid (stores (state_after run)) = None /\
  currentSessionId (stores (state_after run)) = sid /\
  (forall other, other <> sid ->
     cartStorage.getCart other (stores (state_after run))
     = cartStorage.getCart other (stores w)) /\
  orders (stores (state_after run)) = orders (stores w).
Proof.
  intros Hne. cbv zeta.
  by_stepping (handleTwilioMessage createProvider (Some (StartMsg (Some sid) callSid)) w).
  destruct_world w. pose proof (truthy_string_Some sid Hne) as Hts.
  unfold_handlers; norm.
  wp_go.
  all: finish_run; bool_facts; try congruence.
  all: try match goal with Hi : Some _ = Some _ |- _ => injection Hi as <- end.
  all: unfold cartStorage.getCart, cartStorage.clearCart, setSessionId, set_currentSessionId,
         set_carts; cbn [carts currentSessionId orders].
  all: rewrite ?linkSessionToCallSid_orders, ?linkSessionToCallSid_carts.
  all: repeat split; auto.
  all: try apply lookup_delete_eq.
  all: intros other Hother; apply lookup_delete_ne; congruence.
Qed.

Lemma start_without_connect_after_reading
    (w : World P) (sid callSid : option string) :
  (match aiProvider (session w) with Some p => isConnected p | None => false end)
  || negb (truthy_object (twilioConn (session w)))
  || negb (truthy_string sid)
  || negb (truthy_string (match apiKeys (session w) with
                          | Some k => openai k
                          | None => None
                          end)) = true ->
  let run := handleTwilioMessage createProvider (Some (StartMsg sid callSid)) w in
  completion run = Return tt /\
  effects run = [] /\
  aiProvider (session (state_after run)) = aiProvider (session w) /\
  next_socket (state_after run) = next_socket w.
Proof.
  intros Hguard. cbv zeta.
  by_stepping (handleTwilioMessage createProvider (Some (StartMsg sid callSid)) w).
  destruct_world w. cbn in Hguard.
  destruct tw, sid as [[|? ?]|], keys as [[[[|? ?]|]]|], pr as [p|];
    try destruct (isConnected p) eqn:Hconn;
    cbn in Hguard; try discriminate Hguard;
    unfold_handlers; norm; cbn [truthy_string openai] in *.
  all: repeat first [ wp_step; cbn [truthy_string openai] in *
                    | apply wpx_call_provider; intros [? | ?] ? ? ? ].
  all: finish_run; try congruence; auto.
Qed.

(** Whatever the state and whatever the provider does, a [start] event
    invokes on it nothing, or [connect()], or [connect()] and then
    [close()] (when connecting failed); and it calls neither the
    telephony socket nor the observer socket. *)
Theorem start_invokes_at_most_connect
    (w : World P) (sid callSid : option string) :
  let run := handleTwilioMessage createProvider (Some (StartMsg sid callSid)) w in
  (invocations (effects run) = [] \/
   invocations (effects run) = [m_connect] \/
   invocations (effects run) = [m_connect; m_close]) /\
  own_io (effects run) = [].
Proof.
  cbv zeta.
  by_stepping (handleTwilioMessage createProvider (Some (StartMsg sid callSid)) w).
  destruct_world w. unfold_handlers; norm.
  repeat first [ wp_step | apply wpx_call_provider; intros [? | ?] ? ? ? ].
  all: finish_run; auto.
Qed.

End TelephonyFurther.

(** ** Function calls, the observer leg and new connections *)

Section ObserverAndCalls.

Context {P : Type} `{AIProvider P}.
Variable createProvider : AIProviderConfig -> Completion P.
Variable functions : list FunctionHandler.
Variable JSON_parse : string -> option JsValue.

(** A message of the observer can change [saved_config] and nothing
    else: it has no effect on any socket or on the provider, the stores
    and every other field of the session stay, and [saved_config]
    changes only to the [session] member of a [session.update]
    message. *)
Theorem observer_message_changes_only_saved_config (data : string) (w : World P) :
  let run := handleFrontendMessage JSON_parse data w in
  completion run = Return tt /\
  effects run = [] /\
  state_after run =
    mkWorld (set_saved_config (saved_config (session (state_after run))) (session w))
            (stores w) (aiConfig w) (next_socket w) /\
  (saved_config (session (state_after run)) <> saved_config (session w) ->
   exists msg, JSON_parse data = Some msg /\
               js_get "type" msg = Some (JStr "session.update") /\
               saved_config (session (state_after run)) = js_get "session" msg).
Proof.
  cbv zeta. by_stepping (handleFrontendMessage JSON_parse data w).
  destruct_world w. unfold_handlers; norm.
  wp_go.
  all: finish_run.
  all: repeat split; try reflexivity; try congruence.
  intros _. eexists. split; [reflexivity|]. split; [|reflexivity].
  match goal with Hs : String.eqb _ _ = true |- _ => apply String.eqb_eq in Hs; subst end.
  assumption.
Qed.

(** When the observer socket closes, a call in progress is spared: the
    provider is not invoked, the telephony socket is not touched, and
    with a telephony socket or a provider attached only [frontendConn]
    is cleared. With neither, the whole session is reset. The observer
    socket itself is closed if it is still open. *)
Theorem observer_close_spares_the_call (w : World P) :
  let run := onFrontendClose w in
  completion run = Return tt /\
  invocations (effects run) = [] /\
  own_io (effects run) =
    (match frontendConn (session w) with
     | Some s => if isOpen (Some s) then [WsClose (ws_id s)] else []
     | None => []
     end) /\
  session (state_after run) =
    (if truthy_object (twilioConn (session w)) || truthy_object (aiProvider (session w))
     then set_frontendConn None (session w)
     else empty_session) /\
  stores (state_after run) = stores w.
Proof.
  cbv zeta. by_stepping (onFrontendClose w).
  destruct_world w. unfold_handlers; norm.
  wp_go.
  all: settle.
  all: destruct (readyState_eqb _ OPEN); read_effects; auto 10.
Qed.

(** A new telephony connection and a new observer connection replace
    the socket of their leg, closing the previous one if it is open, and
    nothing else: the provider is not invoked and stays attached, and
    the stream id and the timing fields of the previous call stay until
    a [start] event resets them. *)
Theorem new_connection_replaces_only_the_socket
    (sock : WebSocket) (keys : ApiKeys) (w : World P) :
  let call := handleCallConnection sock keys w in
  let observer := handleFrontendConnection sock w in
  (completion call = Return tt /\
   session (state_after call) = set_apiKeys (Some keys) (set_twilioConn (Some sock) (session w)) /\
   invocations (effects call) = [] /\
   own_io (effects call) =
     match twilioConn (session w) with
     | Some old => if isOpen (Some old) then [WsClose (ws_id old)] else []
     | None => []
     end) /\
  (completion observer = Return tt /\
   session (state_after observer) = set_frontendConn (Some sock) (session w) /\
   invocations (effects observer) = [] /\
   own_io (effects observer) =
     match frontendConn (session w) with
     | Some old => if isOpen (Some old) then [WsClose (ws_id old)] else []
     | None => []
     end).
Proof.
  cbv zeta. split.
  - by_stepping (handleCallConnection sock keys w).
    destruct_world w. unfold_handlers; norm. wp_go. all: settle.
    all: destruct (readyState_eqb _ OPEN); read_effects; auto 10.
  - by_stepping (handleFrontendConnection sock w).
    destruct_world w. unfold_handlers; norm. wp_go. all: settle.
    all: destruct (readyState_eqb _ OPEN); read_effects; auto 10.
Qed.

End ObserverAndCalls.

(** ** Media frames on a connected provider *)

Lemma last_cons_default {A : Type} (l : list A) (a d : A) :
  List.last (a :: l) d = List.last l a.
Proof.
  revert a d. induction l as [|b l IH]; intros a d; [reflexivity|].
  change (List.last (a :: b :: l) d) with (List.last (b :: l) d).
  rewrite (IH b d), (IH b a). reflexivity.
Qed.

Lemma media_on_live_provider
    (createProvider : AIProviderConfig -> Completion OpenAIProvider)
    (functions : list FunctionHandler) (JSON_parse : string -> option JsValue)
    (t : Z) (payload : string) (w : World OpenAIProvider) (p : OpenAIProvider)
    (sock : WebSocket) :
  aiProvider (session w) = Some p ->
  connected p = true ->
  ws p = Some sock ->
  readyState sock = OPEN ->
  dispatch createProvider functions JSON_parse (TwilioMessage (Some (MediaMsg t payload))) w =
    (Return tt,
     mkWorld (set_latestMediaTimestamp (Some t) (session w)) (stores w) (aiConfig w)
             (next_socket w),
     [Invoke (m_sendAudio payload);
      ProviderIo (WsSend (ws_id sock)
                    (JSON_stringify (JObj [("type", JStr "input_audio_buffer.append");
                                           ("audio", JStr payload)])))]).
Proof.
  intros Hp Hc Hw Hr.
  destruct w as [[tw fr pr sid sc item st lat keys] sts cfg nxt].
  destruct p as [cfg' conn wsock]. destruct sock as [id rs].
  cbn in Hp, Hc, Hw, Hr. subst.
  reflexivity.
Qed.

(** While the [OpenAIProvider] of the session is connected and its
    socket is open, a sequence of [media] frames reaches the backend
    frame by frame and in order, each as one
    [input_audio_buffer.append]; nothing goes out on the sockets of the
    session, the provider stays the one it was, and
    [latestMediaTimestamp] ends at the timestamp of the last frame. *)
Theorem media_frames_reach_provider_in_order
    (createProvider : AIProviderConfig -> Completion OpenAIProvider)
    (functions : list FunctionHandler) (JSON_parse : string -> option JsValue)
    (frames : list (Z * string)) (w : World OpenAIProvider) (p : OpenAIProvider)
    (sock : WebSocket) :
  aiProvider (session w) = Some p ->
  connected p = true ->
  ws p = Some sock ->
  readyState sock = OPEN ->
  let trace := trace_events createProvider functions JSON_parse (media_events frames) w in
  let w' := run_events createProvider functions JSON_parse (media_events frames) w in
  provider_io trace =
    map (fun f => WsSend (ws_id sock)
                    (JSON_stringify (JObj [("type", JStr "input_audio_buffer.append");
                                           ("audio", JStr (snd f))]))) frames /\
  invocations trace = map (fun f => m_sendAudio (snd f)) frames /\
  own_io trace = [] /\
  latestMediaTimestamp (session w') =
    List.last (map (fun f => Some (fst f)) frames) (latestMediaTimestamp (session w)) /\
  aiProvider (session w') = Some p.
Proof.
  intros Hp Hc Hw Hr. cbv zeta. revert w Hp.
  induction frames as [|[t payload] frames IH]; intros w Hp.
  - cbn. auto.
  - cbn [media_events map trace_events run_events fst snd].
    rewrite (media_on_live_provider createProvider functions JSON_parse t payload w p sock
               Hp Hc Hw Hr).
    unfold effects, state_after. cbn [fst snd].
    destruct (IH (mkWorld (set_latestMediaTimestamp (Some t) (session w)) (stores w)
                          (aiConfig w) (next_socket w))) as (Hio & Hinv & Hown & Hts & Hpr).
    { destruct w as [[tw fr pr sid sc item st lat keys] sts cfg nxt]. exact Hp. }
    fold (media_events frames).
    read_effects. rewrite Hio, Hinv, Hown, Hts, Hpr.
    repeat split.
    rewrite last_cons_default.
    destruct w as [[tw fr pr sid sc item st lat keys] sts cfg nxt]. reflexivity.
Qed.

(** ** The telephony listener on raw data, and function calls that settle later *)


Lemma is_JStr_start_media (v : option JsValue) :
  is_JStr "start" v = true -> is_JStr "media" v = false.
Proof.
  intros Hs. apply is_JStr_true in Hs. subst v. reflexivity.
Qed.

Ltac case_reads :=
  repeat match goal with
         | |- context [match ?x with _ => _ end] => destruct x eqn:?
         | |- context [if ?b then _ else _] => destruct b eqn:?
         end.

Lemma readTwilioMessage_throws (msg : JsValue) (e : JsError) :
  readTwilioMessage msg = Some (Throw e) -> lacks_its_member msg = true.
Proof.
  unfold readTwilioMessage, lacks_its_member, read_member, nullish.
  case_reads; cbn; intros; try discriminate; try reflexivity.
  all: rewrite ?orb_true_r; try reflexivity; congruence.
Qed.

Lemma readTwilioMessage_returns (msg : JsValue) (m : TwilioMsg) :
  readTwilioMessage msg = Some (Return m) -> lacks_its_member msg = false.
Proof.
  unfold readTwilioMessage, lacks_its_member, read_member, nullish.
  case_reads; cbn; intros; try discriminate; try reflexivity.
  all: try (match goal with
            | Hs : is_JStr "start" ?v = true |- _ =>
                rewrite (is_JStr_start_media v Hs) in *
            end).
  all: rewrite ?andb_false_r; try reflexivity; try discriminate.
Qed.

Lemma bind_lift_Return {P : Type} {A B : Type} (a : A) (k : A -> Handler P B) (w : World P) :
  (let* x := lift_completion (Return a) in k x)%js w = k a w.
Proof.
  unfold bind, lift_completion. destruct (k a w) as [[r w'] es]. reflexivity.
Qed.

Section RawDataProperties.

Context {P : Type} `{AIProvider P}.
Variable createProvider : AIProviderConfig -> Completion P.
Variable functions : list FunctionHandler.
Variable JSON_parse : string -> option JsValue.



Lemma handleFunctionCall_registered
    (data : FunctionCallData) (f : FunctionHandler) (args : JsValue) (w : World P) :
  List.find (fun f => String.eqb (schema_name f) (fc_name data)) functions = Some f ->
  JSON_parse (fc_arguments data) = Some args ->
  handleFunctionCall functions JSON_parse data w =
    (Return match fst (handler f args (stores w)) with
            | Return output => output
            | Throw err =>
                error_payload ("Error running function " +:+ fc_name data +:+ ": "
                               +:+ message err)
            end,
     mkWorld (session w) (snd (handler f args (stores w))) (aiConfig w) (next_socket w),
     []).
Proof.
  intros Hfind Hparse. unfold handleFunctionCall. rewrite Hfind, Hparse.
  unfold try_catch, run_handler, ret.
  destruct (handler f args (stores w)) as [[out|err] st]; reflexivity.
Qed.

Lemma onFunctionCallSettled_returns `{!ProviderReturns P}
    (data : FunctionCallData) (output : string) (w : World P) :
  let answered := onFunctionCallSettled data (Return output) w in
  completion answered = Return tt /\
  invocations (effects answered) =
    match aiProvider (session w) with
    | Some _ => [m_sendFunctionResponse (fc_name data) (fc_call_id data) output]
    | None => []
    end /\
  own_io (effects answered) = [] /\
  stores (state_after answered) = stores w /\
  twilioConn (session (state_after answered)) = twilioConn (session w) /\
  streamSid (session (state_after answered)) = streamSid (session w).
Proof.
  cbv zeta. by_stepping (onFunctionCallSettled data (Return output) w).
  destruct_world w. unfold onFunctionCallSettled; norm.
  wp_go.
  all: settle.
Qed.

Lemma onFunctionCall_after_call
    (data : FunctionCallData) (w w1 : World P) (output : string) :
  handleFunctionCall functions JSON_parse data w = (Return output, w1, []) ->
  onFunctionCall functions JSON_parse data w = onFunctionCallSettled data (Return output) w1.
Proof.
  intros Hcalled. unfold onFunctionCall, onFunctionCallSettled, try_catch, bind.
  rewrite Hcalled. unfold lift_completion, get. reflexivity.
Qed.


End RawDataProperties.

(** ** The further properties on concrete inputs *)

(** The webhook stores the two numbers of call [CA1]; stream [S1] is
    linked to that call and reads them back. *)
Lemma call_participants_round_trip_witness :
  let c := mkCallContext ∅ fresh_stores in
  getCallerForSession "S1"
    (linkSession (Some "S1") (Some "CA1")
       (setCallParticipantsForCallSid "CA1" (Some "+15550001") (Some "+15550002") c))
  = Some "+15550001" /\
  getTwilioNumberForSession "S1"
    (linkSession (Some "S1") (Some "CA1")
       (setCallParticipantsForCallSid "CA1" (Some "+15550001") (Some "+15550002") c))
  = Some "+15550002" /\
  getCallerForSession "S1"
    (setCallParticipantsForCallSid "CA1" (Some "+15550001") (Some "+15550002")
       (linkSession (Some "S1") (Some "CA1") c))
  = Some "+15550001" /\
  getTwilioNumberForSession "S1"
    (setCallParticipantsForCallSid "CA1" (Some "+15550001") (Some "+15550002")
       (linkSession (Some "S1") (Some "CA1") c))
  = Some "+15550002".
Proof.
  exact (call_participants_round_trip (mkCallContext ∅ fresh_stores) "S1" "CA1"
           (Some "+15550001") (Some "+15550002") ltac:(discriminate) ltac:(discriminate)).
Defined.

(** The id of the default model, a bare provider name, and an id with a
    third part. *)
Lemma getModelById_reads_two_parts_witness :
  getModelById "openai" = None /\
  getModelById "openai:gpt-realtime" = getModelConfig "openai" "gpt-realtime" /\
  getModelById "openai:gpt-realtime:2025" = getModelConfig "openai" "gpt-realtime".
Proof.
  exact (getModelById_reads_two_parts "openai" "gpt-realtime" "2025" eq_refl eq_refl).
Defined.

(** A provider that was just created is not connected. *)
Lemma OpenAI_not_connected_sends_nothing_witness :
  OpenAI.truncate "I1" 450 (OpenAI.new sample_config)
  = (Return tt, OpenAI.new sample_config, []) /\
  OpenAI.sendFunctionResponse "get_cart" "call_1" "{}" (OpenAI.new sample_config)
  = (Return tt, OpenAI.new sample_config, []).
Proof.
  exact (OpenAI_not_connected_sends_nothing (OpenAI.new sample_config)
           "I1" "get_cart" "call_1" "{}" 450 eq_refl).
Defined.


(** A call is connected, starts on stream [S1], and the assistant speaks. *)
Lemma timing_fields_agree_in_reachable_states_witness :
  timing_consistent
    (session (run_events createAIProvider sample_functions JSON_parse_ascii
                [CallConnected twilio_socket (mkApiKeys (Some "sk-test"));
                 TwilioMessage (Some (StartMsg (Some "S1") None));
                 ProviderAudio "AAAA" (Some "I1")]
                (mkWorld empty_session fresh_stores sample_aiConfig 0))).
Proof.
  exact (timing_fields_agree_in_reachable_states createAIProvider sample_functions
           JSON_parse_ascii
           [CallConnected twilio_socket (mkApiKeys (Some "sk-test"));
            TwilioMessage (Some (StartMsg (Some "S1") None));
            ProviderAudio "AAAA" (Some "I1")]
           fresh_stores sample_aiConfig 0%nat).
Defined.

(** The [close] message on the call in progress, which has no observer:
    the telephony socket and the provider are closed and the session is
    the empty one. *)
Lemma close_message_tears_down_all_legs_witness :
  completion (handleTwilioMessage createAIProvider (Some CloseMsg) speaking_world)
  = Return tt /\
  session (state_after (handleTwilioMessage createAIProvider (Some CloseMsg) speaking_world))
  = empty_session /\
  stores (state_after (handleTwilioMessage createAIProvider (Some CloseMsg) speaking_world))
  = fresh_stores /\
  own_io (effects (handleTwilioMessage createAIProvider (Some CloseMsg) speaking_world))
  = [WsClose 1] /\
  invocations (effects (handleTwilioMessage createAIProvider (Some CloseMsg) speaking_world))
  = [m_close].
Proof.
  exact (close_message_tears_down_all_legs createAIProvider speaking_world).
Defined.

(** The first chunk of item [I1] on the idle call: a [media] and a
    [mark] frame go out and the utterance starts at 0. *)
Lemma audio_chunk_is_relayed_witness :
  completion (handleAIAudio "AAAA" (Some "I1") idle_world) = Return tt /\
  own_io (effects (handleAIAudio "AAAA" (Some "I1") idle_world)) =
    [WsSend 1 (JSON_stringify (JObj [("event", JStr "media"); ("streamSid", JStr "S1");
                                     ("media", JObj [("payload", JStr "AAAA")])]));
     WsSend 1 (JSON_stringify (JObj [("event", JStr "mark"); ("streamSid", JStr "S1")]))] /\
  invocations (effects (handleAIAudio "AAAA" (Some "I1") idle_world)) = [] /\
  responseStartTimestamp (session (state_after (handleAIAudio "AAAA" (Some "I1") idle_world)))
  = Some 0 /\
  lastAssistantItem (session (state_after (handleAIAudio "AAAA" (Some "I1") idle_world)))
  = Some "I1" /\
  stores (state_after (handleAIAudio "AAAA" (Some "I1") idle_world)) = fresh_stores.
Proof.
  exact (audio_chunk_is_relayed idle_world twilio_socket "S1" "AAAA" (Some "I1")
           eq_refl eq_refl ltac:(discriminate)).
Defined.

(** Before any connection an audio chunk is dropped. *)
Lemma audio_chunk_without_call_is_dropped_witness :
  handleAIAudio "AAAA" (Some "I1") (initial_world fresh_stores sample_aiConfig)
  = (Return tt, initial_world fresh_stores sample_aiConfig, []).
Proof.
  exact (audio_chunk_without_call_is_dropped (initial_world fresh_stores sample_aiConfig)
           "AAAA" (Some "I1") eq_refl).
Defined.

(** On the call in progress, whose utterance started at 1000, a media
    frame and a chunk of a new item leave the start at 1000. *)
Lemma utterance_start_is_recorded_once_witness :
  responseStartTimestamp
    (session (run_events createAIProvider sample_functions JSON_parse_ascii
                [TwilioMessage (Some (MediaMsg 1500 "AAAA")); ProviderAudio "BBBB" (Some "I2")]
                speaking_world)) = Some 1000.
Proof.
  exact (utterance_start_is_recorded_once createAIProvider sample_functions JSON_parse_ascii
           [TwilioMessage (Some (MediaMsg 1500 "AAAA")); ProviderAudio "BBBB" (Some "I2")]
           speaking_world 1000
           ltac:(repeat constructor)
           eq_refl).
Defined.

(** The [start] of stream [S1] while the stores hold a cart of [S1]. *)
Lemma start_begins_a_fresh_call_witness :
  cartStorage.getCart "S1" (stores returning_world)
  = Some (mkCart "S1" [mkCartItem "c2" "pizza_pepperoni" "Pepperoni Pizza" 2]) /\
  streamSid (session (state_after
    (handleTwilioMessage createAIProvider (Some (StartMsg (Some "S1") None)) returning_world)))
  = Some "S1" /\
  latestMediaTimestamp (session (state_after
    (handleTwilioMessage createAIProvider (Some (StartMsg (Some "S1") None)) returning_world)))
  = Some 0 /\
  cartStorage.getCart "S1" (stores (state_after
    (handleTwilioMessage createAIProvider (Some (StartMsg (Some "S1") None)) returning_world)))
  = None.
Proof.
  split; [reflexivity|].
  pose proof (start_begins_a_fresh_call createAIProvider returning_world "S1" None
                ltac:(discriminate)) as (_ & Hsid & Hts & _ & _ & _ & _ & Hcart & _).
  exact (conj Hsid (conj Hts Hcart)).
Defined.



(** The same call when the provider has gone by the time the promise
    settles: the order is cancelled and nothing is sent. *)
Example function_call_settles_without_provider :
  effects (onFunctionCallSettled cancel_o1_call
             (completion (handleFunctionCall sample_functions JSON_parse_ascii
                            cancel_o1_call ordering_world))
             (state_after (onProviderClose
                (state_after (handleFunctionCall sample_functions JSON_parse_ascii
                                cancel_o1_call ordering_world))))) = [].
Proof. reflexivity. Qed.

(** Two media frames on the call in progress. *)
Lemma media_frames_reach_provider_in_order_witness :
  provider_io (trace_events createAIProvider sample_functions JSON_parse_ascii
                 (media_events [(1500, "AAAA"); (1520, "BBBB")]) speaking_world) =
    [WsSend 2 (JSON_stringify (JObj [("type", JStr "input_audio_buffer.append");
                                     ("audio", JStr "AAAA")]));
     WsSend 2 (JSON_stringify (JObj [("type", JStr "input_audio_buffer.append");
                                     ("audio", JStr "BBBB")]))] /\
  invocations (trace_events createAIProvider sample_functions JSON_parse_ascii
                 (media_events [(1500, "AAAA"); (1520, "BBBB")]) speaking_world)
  = [m_sendAudio "AAAA"; m_sendAudio "BBBB"] /\
  own_io (trace_events createAIProvider sample_functions JSON_parse_ascii
            (media_events [(1500, "AAAA"); (1520, "BBBB")]) speaking_world) = [] /\
  latestMediaTimestamp
    (session (run_events createAIProvider sample_functions JSON_parse_ascii
                (media_events [(1500, "AAAA"); (1520, "BBBB")]) speaking_world))
  = Some 1520 /\
  aiProvider
    (session (run_events createAIProvider sample_functions JSON_parse_ascii
                (media_events [(1500, "AAAA"); (1520, "BBBB")]) speaking_world))
  = Some live_provider.
Proof.
  exact (media_frames_reach_provider_in_order createAIProvider sample_functions
           JSON_parse_ascii [(1500, "AAAA"); (1520, "BBBB")] speaking_world live_provider
           (mkWebSocket 2 OPEN) eq_refl eq_refl eq_refl eq_refl).
Defined.
